(** * Model-maintenance workflow: a shallow embedding

    The development follows two files of the repository:

    - [src/workflow/model_maintenance.py], the Airflow workflow that checks
      the accuracy of the deployed model, backs it up, retrains it and
      validates the result (modules [Python], [Runtime], [Airflow] and
      [ModelMaintenance]);
    - [src/app/main.py], of which the two archive endpoints [/backup] and
      [/reverse_backup] are embedded (module [Main]);
    - [src/app/security_center.py], the module [main.py] takes its access
      tokens from: [create_access_token] and [get_user_with_token] (module
      [SecurityCenter], over the table of users of [src/app/database.py],
      module [Database]).

    Python code is embedded as functions in a state-and-exception monad over
    an explicit world (the requests sent, the XCom entries pushed, the log).
    The remote API is an arbitrary deterministic environment: a function from
    the requests sent so far and the current request to a response, or to a
    transport error. *)

From Stdlib Require Import String Ascii List ZArith QArith Bool Lia.
Import ListNotations.
Local Open Scope string_scope.
Local Open Scope list_scope.
Set Warnings "-register-all".

(* ===================================================================== *)
(** * The fragment of Python the two files use *)
(* ===================================================================== *)

Module Python.

(** Objects: the values JSON decodes to, and the objects of the libraries.
    [PyResponse] is a [requests.Response]: its status code, its text, and
    the value its body decodes to as JSON ([None] when the body is not
    JSON). [PyPath] is a [pathlib.Path]. [PyMethod o m] is the bound method
    [o.m]. Finite floats are rationals. *)
Inductive pyobj : Type :=
| PyNone
| PyBool (b : bool)
| PyInt (z : Z)
| PyFloat (q : Q)
| PyStr (s : string)
| PyList (items : list pyobj)
| PyDict (items : list (string * pyobj))
| PyResponse (status_code : Z) (text : string) (decoded : option pyobj)
| PyPath (path : string)
| PyMethod (self : pyobj) (name : string).

Inductive pyclass : Type :=
| ClsNoneType | ClsBool | ClsInt | ClsFloat | ClsStr | ClsList | ClsDict
| ClsResponse | ClsPosixPath | ClsMethod.

Definition class_of (o : pyobj) : pyclass :=
  match o with
  | PyNone => ClsNoneType
  | PyBool _ => ClsBool
  | PyList _ => ClsList
  | PyInt _ => ClsInt
  | PyFloat _ => ClsFloat
  | PyStr _ => ClsStr
  | PyDict _ => ClsDict
  | PyResponse _ _ _ => ClsResponse
  | PyPath _ => ClsPosixPath
  | PyMethod _ _ => ClsMethod
  end.

Inductive exn : Type :=
| ConnectionError                       (* requests: no response obtained *)
| JSONDecodeError
| TypeError (what : string)
| ValueError (what : string)
| AttributeError (cls : pyclass) (attr : string)
| KeyError (key : string)
| NameError (name : string)
| IndexError
| FileNotFoundError
| IsADirectoryError
| OverflowError
| HTTPException (status_code : Z)
| UndefinedError (name : string)        (* jinja2: a name the template
                                           context does not define *)
| AirflowException (what : string)
| Unmodelled (what : string).            (* no exception of Python: marks a
                                            call the model does not cover *)

Inductive outcome (A : Type) : Type :=
| Return (a : A)
| Raise (e : exn).
Arguments Return {A} a.
Arguments Raise {A} e.

(** The public attributes of each class (names without underscores in
    front), as the libraries define them. *)
Definition attributes (c : pyclass) : list string :=
  match c with
  | ClsResponse =>
      ["status_code"; "headers"; "raw"; "url"; "encoding"; "history";
       "reason"; "cookies"; "elapsed"; "request"; "ok"; "is_redirect";
       "is_permanent_redirect"; "next"; "apparent_encoding"; "iter_content";
       "iter_lines"; "content"; "text"; "json"; "links"; "raise_for_status";
       "close"]
  | ClsStr =>
      ["capitalize"; "casefold"; "center"; "count"; "encode"; "endswith";
       "expandtabs"; "find"; "format"; "format_map"; "index"; "isalnum";
       "isalpha"; "isascii"; "isdecimal"; "isdigit"; "isidentifier";
       "islower"; "isnumeric"; "isprintable"; "isspace"; "istitle";
       "isupper"; "join"; "ljust"; "lower"; "lstrip"; "maketrans";
       "partition"; "removeprefix"; "removesuffix"; "replace"; "rfind";
       "rindex"; "rjust"; "rpartition"; "rsplit"; "rstrip"; "split";
       "splitlines"; "startswith"; "strip"; "swapcase"; "title";
       "translate"; "upper"; "zfill"]
  | ClsDict =>
      ["clear"; "copy"; "fromkeys"; "get"; "items"; "keys"; "pop";
       "popitem"; "setdefault"; "update"; "values"]
  | ClsPosixPath =>
      ["parts"; "drive"; "root"; "anchor"; "parents"; "parent"; "name";
       "suffix"; "suffixes"; "stem"; "as_posix"; "as_uri"; "is_absolute";
       "is_relative_to"; "is_reserved"; "joinpath"; "match"; "relative_to";
       "with_name"; "with_stem"; "with_suffix"; "cwd"; "home"; "stat";
       "chmod"; "exists"; "expanduser"; "glob"; "group"; "is_dir";
       "is_file"; "is_mount"; "is_symlink"; "is_socket"; "is_fifo";
       "is_block_device"; "is_char_device"; "iterdir"; "lchmod"; "lstat";
       "mkdir"; "open"; "owner"; "read_bytes"; "read_text"; "readlink";
       "rename"; "replace"; "absolute"; "resolve"; "rglob"; "rmdir";
       "samefile"; "symlink_to"; "hardlink_to"; "touch"; "unlink";
       "write_bytes"; "write_text"]
  | ClsInt | ClsBool =>
      ["as_integer_ratio"; "bit_count"; "bit_length"; "conjugate";
       "denominator"; "from_bytes"; "imag"; "numerator"; "real"; "to_bytes"]
  | ClsList =>
      ["append"; "clear"; "copy"; "count"; "extend"; "index"; "insert";
       "pop"; "remove"; "reverse"; "sort"]
  | ClsFloat =>
      ["as_integer_ratio"; "conjugate"; "fromhex"; "hex"; "imag";
       "is_integer"; "real"]
  | ClsNoneType => []
  | ClsMethod => []
  end.

Definition hasattr (o : pyobj) (name : string) : bool :=
  existsb (String.eqb name) (attributes (class_of o)).

(** [o.name]. The two data attributes the workflow reads from a response
    carry their value; any other attribute of the class is returned as a
    bound method. *)
Definition getattr (o : pyobj) (name : string) : outcome pyobj :=
  if hasattr o name then
    match o with
    | PyResponse sc tx _ =>
        if name =? "status_code" then Return (PyInt sc)
        else if name =? "text" then Return (PyStr tx)
        else Return (PyMethod o name)
    | _ => Return (PyMethod o name)
    end
  else Raise (AttributeError (class_of o) name).

Fixpoint lookup {A : Type} (k : string) (d : list (string * A)) : option A :=
  match d with
  | [] => None
  | (k', v) :: d' => if k' =? k then Some v else lookup k d'
  end.

(** [f(args)]. The methods the two files call are [Response.json()],
    [dict.get(key)] and [Path.iterdir()] (whose result needs the file system
    and is given in [Main]); the call of any other method is [Unmodelled].
    An object that is no method is not callable. *)
Definition call (f : pyobj) (args : list pyobj) : outcome pyobj :=
  match f with
  | PyMethod (PyResponse _ _ decoded) m =>
      if (m =? "json") && (length args =? 0)%nat then
        match decoded with
        | Some v => Return v
        | None => Raise JSONDecodeError
        end
      else Raise (Unmodelled "method call")
  | PyMethod (PyDict items) m =>
      match args with
      | [PyStr k] =>
          if m =? "get" then
            match lookup k items with
            | Some v => Return v
            | None => Return PyNone
            end
          else Raise (Unmodelled "method call")
      | _ => Raise (Unmodelled "method call")
      end
  | PyMethod _ _ => Raise (Unmodelled "method call")
  | _ => Raise (TypeError "object is not callable")
  end.

(** [o.m(args)]: attribute lookup, then call. *)
Definition call_method (o : pyobj) (m : string) (args : list pyobj)
  : outcome pyobj :=
  match getattr o m with
  | Return f => call f args
  | Raise e => Raise e
  end.

(** Decimal literals [-]d+[.d+], the part of the grammar [float(str)]
    accepts that a threshold variable is written in. *)
Definition digit_value (c : ascii) : option Z :=
  let n := nat_of_ascii c in
  if ((48 <=? n) && (n <=? 57))%nat then Some (Z.of_nat (n - 48)) else None.

Fixpoint digits (s : string) (acc : Z) : option Z :=
  match s with
  | EmptyString => Some acc
  | String c s' =>
      match digit_value c with
      | Some d => digits s' (10 * acc + d)%Z
      | None => None
      end
  end.

Fixpoint split_dot (s : string) : string * option string :=
  match s with
  | EmptyString => (EmptyString, None)
  | String c s' =>
      if Ascii.eqb c "." then (EmptyString, Some s')
      else let (a, b) := split_dot s' in (String c a, b)
  end.

Definition unsigned_literal (s : string) : option Q :=
  match split_dot s with
  | (EmptyString, _) => None
  | (i, None) => option_map inject_Z (digits i 0)
  | (_, Some EmptyString) => None
  | (i, Some f) =>
      match digits i 0, digits f 0 with
      | Some a, Some b =>
          let scale := (10 ^ Z.of_nat (String.length f))%Z in
          Some (Qmake (a * scale + b) (Z.to_pos scale))
      | _, _ => None
      end
  end.

Definition float_literal (s : string) : option Q :=
  match s with
  | String c s' =>
      if Ascii.eqb c "-" then option_map Qopp (unsigned_literal s')
      else unsigned_literal s
  | EmptyString => None
  end.

(** [float(o)]. *)
Definition float (o : pyobj) : outcome pyobj :=
  match o with
  | PyBool b => Return (PyFloat (inject_Z (Z.b2z b)))
  | PyInt z => Return (PyFloat (inject_Z z))
  | PyFloat q => Return (PyFloat q)
  | PyStr s =>
      match float_literal s with
      | Some q => Return (PyFloat q)
      | None => Raise (ValueError "could not convert string to float")
      end
  | _ => Raise (TypeError "float() argument must be a string or a real number")
  end.

Definition number (o : pyobj) : option Q :=
  match o with
  | PyBool b => Some (inject_Z (Z.b2z b))
  | PyInt z => Some (inject_Z z)
  | PyFloat q => Some q
  | _ => None
  end.

(** [a >= b]: defined between numbers, between strings and between lists
    (whose comparison is [Unmodelled]). *)
Definition ge (a b : pyobj) : outcome bool :=
  match number a, number b with
  | Some x, Some y => Return (Qle_bool y x)
  | _, _ =>
      match a, b with
      | PyStr s, PyStr t => Return (String.leb t s)
      | PyList _, PyList _ => Raise (Unmodelled "comparison of lists")
      | _, _ => Raise (TypeError "'>=' not supported between these instances")
      end
  end.

(** [o == n] for an integer literal [n]. *)
Definition eq_int (o : pyobj) (n : Z) : bool :=
  match o with
  | PyBool b => (Z.b2z b =? n)%Z
  | PyInt z => (z =? n)%Z
  | PyFloat q => Qeq_bool q (inject_Z n)
  | _ => false
  end.

End Python.

(* ===================================================================== *)
(** * Effects: the remote API, the XCom store and the log *)
(* ===================================================================== *)

Module Runtime.
Import Python.

(** What [requests.post] sends: the URL and the credentials, either the
    form fields of the token request or the bearer token of the
    [Authorization] header (the object formatted into it). *)
Inductive credentials : Type :=
| Form (username password : string)
| Bearer (token : pyobj).

Record Request : Type := mkRequest {
  url : string;
  auth : credentials }.

(** A response as the API sends it. *)
Record Answer : Type := mkAnswer {
  answer_status : Z;
  answer_text : string;
  answer_json : option pyobj }.

(** The remote API: from the requests already sent (most recent first) and
    the request at hand to an answer, or to [None] when the call obtains no
    response (connection refused, timeout). *)
Definition Server : Type := list Request -> Request -> option Answer.

(** An XCom entry: the task that pushed it, its key and its value. *)
Record XCom : Type := mkXCom {
  xcom_task : string;
  xcom_key : string;
  xcom_value : pyobj }.

Inductive level : Type := INFO | ERROR.

(** The world a task runs in. Each list has its most recent element first. *)
Record World : Type := mkWorld {
  sent : list Request;
  xcom : list XCom;
  log : list (level * string) }.

Definition empty_world : World := mkWorld [] [] [].

(** Computations: a result or an exception, and the world they leave. The
    effects made before an exception is raised stay. *)
Definition M (A : Type) : Type := World -> outcome A * World.

Definition ret {A : Type} (a : A) : M A := fun w => (Return a, w).

Definition raise {A : Type} (e : exn) : M A := fun w => (Raise e, w).

Definition bind {A B : Type} (m : M A) (k : A -> M B) : M B :=
  fun w =>
    match m w with
    | (Return a, w') => k a w'
    | (Raise e, w') => (Raise e, w')
    end.

Definition lift {A : Type} (r : outcome A) : M A := fun w => (r, w).

Declare Scope py_scope.
Delimit Scope py_scope with py.
Notation "x <- m ;; k" := (bind m (fun x => k))
  (at level 61, m at next level, right associativity) : py_scope.
Notation "m ;; k" := (bind m (fun _ => k))
  (at level 61, right associativity) : py_scope.
Local Open Scope py_scope.

(** [requests.post(url, ...)]: the request is recorded, then the API
    answers or the call raises. *)
Definition requests_post (srv : Server) (u : string) (c : credentials)
  : M pyobj :=
  fun w =>
    let rq := mkRequest u c in
    let w' := mkWorld (rq :: sent w) (xcom w) (log w) in
    match srv (sent w) rq with
    | Some a =>
        (Return (PyResponse (answer_status a) (answer_text a) (answer_json a)),
         w')
    | None => (Raise ConnectionError, w')
    end.

Definition logging (l : level) (msg : string) : M unit :=
  fun w => (Return tt, mkWorld (sent w) (xcom w) ((l, msg) :: log w)).

(** [ti.xcom_push(key=k, value=v)], [ti] being the instance of task [task]. *)
Definition xcom_push (task k : string) (v : pyobj) : M unit :=
  fun w => (Return tt, mkWorld (sent w) (mkXCom task k v :: xcom w) (log w)).

Fixpoint find_xcom (task k : string) (l : list XCom) : option pyobj :=
  match l with
  | [] => None
  | x :: l' =>
      if (xcom_task x =? task) && (xcom_key x =? k) then Some (xcom_value x)
      else find_xcom task k l'
  end.

(** [ti.xcom_pull(task_ids=task, key=k)]: the latest value pushed by that
    task under that key, [None] when there is none. *)
Definition xcom_pull (task k : string) : M pyobj :=
  fun w =>
    match find_xcom task k (xcom w) with
    | Some v => (Return v, w)
    | None => (Return PyNone, w)
    end.

End Runtime.

(* ===================================================================== *)
(** * Airflow: the graph, the evaluation of a DAG file, the executor *)
(* ===================================================================== *)

Module Airflow.
Import Python Runtime.

(** A templated field: text, and expressions [{{ name.attribute(...) }}],
    which Jinja evaluates when the task runs. *)
Inductive piece : Type :=
| Text (s : string)
| Expression (name attribute : string).

Definition template : Type := list piece.

(** The operator classes of the workflow; an email operator carries its
    templated body. *)
Inductive OperatorClass : Type :=
| PythonOperator
| BranchPythonOperator
| EmailOperator (html_content : template).

(** The trigger rule every operator of the workflow declares or is left
    with by default. *)
Inductive TriggerRule : Type := ALL_SUCCESS.

Record Task : Type := mkTask {
  task_id : string;
  operator : OperatorClass;
  python_callable : option string;     (* the name of the function *)
  trigger_rule : TriggerRule }.

(** A DAG: its arguments, the tasks registered with [dag=dag] in the order
    of registration, and the dependency edges (upstream, downstream). *)
Record DAG : Type := mkDAG {
  dag_id : string;
  retries : nat;                        (* default_args['retries'] *)
  retry_delay : Z;                      (* default_args['retry_delay'], s *)
  schedule_interval : Z;                (* seconds *)
  max_active_runs : option nat;         (* None: not passed to DAG(...) *)
  tasks : list Task;
  edges : list (string * string) }.

(** ** Evaluating the statements of a DAG file *)

Inductive expr : Type :=
| Name (id : string)
| ListOf (items : list string)          (* [a, b]: a list display of names *)
| RShift (l r : expr)                   (* l >> r *)
| VariableGet (key : string)            (* Variable.get(key), no default *)
| NewDAG (id : string) (retries : nat) (retry_delay schedule_interval : Z)
| NewOperator (cls : OperatorClass) (id : string)
              (callable : option string) (dag : string).

Inductive stmt : Type :=
| Assign (target : string) (e : expr)
| Def (name : string)
| Expr (e : expr).

Inductive mval : Type :=
| MStr (s : string)
| MDag
| MFunction (name : string)
| MTask (id : string)
| MTaskList (ids : list string).

Record ModuleState : Type := mkModuleState {
  globals : list (string * mval);
  the_dag : option DAG }.

Definition resolve (st : ModuleState) (id : string) : outcome mval :=
  match lookup id (globals st) with
  | Some v => Return v
  | None => Raise (NameError id)
  end.

Fixpoint resolve_tasks (st : ModuleState) (ids : list string)
  : outcome (list string) :=
  match ids with
  | [] => Return []
  | id :: ids' =>
      match resolve st id with
      | Return (MTask t) =>
          match resolve_tasks st ids' with
          | Return ts => Return (t :: ts)
          | Raise e => Raise e
          end
      | Return _ => Raise (TypeError "a list of operators is expected")
      | Raise e => Raise e
      end
  end.

Definition add_edges (es : list (string * string)) (st : ModuleState)
  : ModuleState :=
  mkModuleState (globals st)
    (option_map
       (fun d => mkDAG (dag_id d) (retries d) (retry_delay d)
                       (schedule_interval d) (max_active_runs d) (tasks d)
                       (edges d ++ es))
       (the_dag st)).

Definition add_task (t : Task) (st : ModuleState) : ModuleState :=
  mkModuleState (globals st)
    (option_map
       (fun d => mkDAG (dag_id d) (retries d) (retry_delay d)
                       (schedule_interval d) (max_active_runs d)
                       (tasks d ++ [t]) (edges d))
       (the_dag st)).

(** [a >> b] sets [b] downstream of [a] and evaluates to [b]; either side
    may be a list of operators, not both. *)
Definition rshift (a b : mval) (st : ModuleState)
  : outcome (mval * ModuleState) :=
  match a, b with
  | MTask x, MTask y => Return (b, add_edges [(x, y)] st)
  | MTask x, MTaskList ys =>
      Return (b, add_edges (map (fun y => (x, y)) ys) st)
  | MTaskList xs, MTask y =>
      Return (b, add_edges (map (fun x => (x, y)) xs) st)
  | _, _ => Raise (TypeError "unsupported operand types for >>")
  end.

Fixpoint eval (vars : list (string * string)) (e : expr) (st : ModuleState)
  : outcome (mval * ModuleState) :=
  match e with
  | Name id =>
      match resolve st id with
      | Return v => Return (v, st)
      | Raise x => Raise x
      end
  | ListOf ids =>
      match resolve_tasks st ids with
      | Return ts => Return (MTaskList ts, st)
      | Raise x => Raise x
      end
  | RShift l r =>
      match eval vars l st with
      | Return (a, st1) =>
          match eval vars r st1 with
          | Return (b, st2) => rshift a b st2
          | Raise x => Raise x
          end
      | Raise x => Raise x
      end
  | VariableGet key =>
      match lookup key vars with
      | Some v => Return (MStr v, st)
      | None => Raise (KeyError key)
      end
  | NewDAG id n delay interval =>
      Return (MDag,
              mkModuleState (globals st)
                (Some (mkDAG id n delay interval None [] [])))
  | NewOperator cls id callable dag =>
      match resolve st dag with
      | Return MDag =>
          match callable with
          | Some f =>
              match resolve st f with
              | Return (MFunction _) =>
                  Return (MTask id,
                          add_task (mkTask id cls callable ALL_SUCCESS) st)
              | Return _ => Raise (TypeError "python_callable must be callable")
              | Raise x => Raise x
              end
          | None =>
              Return (MTask id, add_task (mkTask id cls None ALL_SUCCESS) st)
          end
      | Return _ => Raise (TypeError "dag must be a DAG")
      | Raise x => Raise x
      end
  end.

Definition bind_name (id : string) (v : mval) (st : ModuleState)
  : ModuleState :=
  mkModuleState ((id, v) :: globals st) (the_dag st).

Definition exec_stmt (vars : list (string * string)) (s : stmt)
  (st : ModuleState) : outcome ModuleState :=
  match s with
  | Assign target e =>
      match eval vars e st with
      | Return (v, st') => Return (bind_name target v st')
      | Raise x => Raise x
      end
  | Def name => Return (bind_name name (MFunction name) st)
  | Expr e =>
      match eval vars e st with
      | Return (_, st') => Return st'
      | Raise x => Raise x
      end
  end.

Fixpoint exec (vars : list (string * string)) (body : list stmt)
  (st : ModuleState) : outcome ModuleState :=
  match body with
  | [] => Return st
  | s :: body' =>
      match exec_stmt vars s st with
      | Return st' => exec vars body' st'
      | Raise x => Raise x
      end
  end.

(** Importing a DAG file: its statements run in an empty module; the
    scheduler gets the DAG only when none of them raises. *)
Definition import_module (vars : list (string * string)) (body : list stmt)
  : outcome (option DAG) :=
  match exec vars body (mkModuleState [] None) with
  | Return st => Return (the_dag st)
  | Raise x => Raise x
  end.

(** ** Running a DAG

    The executor is Airflow's and not part of the repository; what follows
    are its rules, as Airflow documents them, for the constructs the
    workflow uses. A task whose
    callable raises is tried again, [retries] times after the first attempt,
    [retry_delay] apart, and is [failed] when the last attempt raises. Under
    [ALL_SUCCESS] a task runs when all its upstream tasks are [success]; it
    is [upstream_failed] when one of them is [failed] or [upstream_failed],
    and [skipped] when one of them is [skipped]. A branch operator checks
    what its callable returned and marks [skipped] every task directly
    downstream of it that is neither named there nor downstream of a task
    named there. An email operator renders its body and sends the message;
    a body that does not render fails the attempt. The context is
    passed to the callables ([kwargs['ti']] is the running task instance).
    The entry Airflow stores for the value a callable returns (key
    [return_value]) is left out: the workflow never pulls it. *)

Inductive TaskState : Type := success | failed | upstream_failed | skipped.

Record DagRun : Type := mkDagRun {
  world : World;
  states : list (string * TaskState);     (* most recent first *)
  try_numbers : list (string * nat);      (* attempts made, per task run *)
  notified : list string }.               (* email tasks that sent *)

Definition callable : Type := string -> M pyobj.

Definition state_of (id : string) (r : DagRun) : option TaskState :=
  lookup id (states r).

Definition set_state (id : string) (s : TaskState) (r : DagRun) : DagRun :=
  mkDagRun (world r) ((id, s) :: states r) (try_numbers r) (notified r).

Definition upstream (d : DAG) (id : string) : list string :=
  map fst (filter (fun e => snd e =? id) (edges d)).

Definition downstream (d : DAG) (id : string) : list string :=
  map snd (filter (fun e => fst e =? id) (edges d)).

(** The attempts of one task: the result of the first attempt that returns
    ([None] when every attempt raises), the world left, and the number of
    attempts made. *)
Fixpoint attempts (f : M pyobj) (budget : nat) (w : World)
  : option pyobj * World * nat :=
  match budget with
  | O => (None, w, O)
  | S b =>
      match f w with
      | (Return v, w') => (Some v, w', 1%nat)
      | (Raise _, w') =>
          let '(res, w'', n) := attempts f b w' in (res, w'', S n)
      end
  end.

Definition max_tries (d : DAG) : nat := S (retries d).


Definition is_failed (s : option TaskState) : bool :=
  match s with
  | Some failed | Some upstream_failed => true
  | _ => false
  end.

Definition is_skipped (s : option TaskState) : bool :=
  match s with Some skipped => true | _ => false end.

Definition is_success (s : option TaskState) : bool :=
  match s with Some success => true | _ => false end.

(** *** Branching

    What the callable of a branch operator returns names the tasks to
    follow: [None] names none, a string one task, a list of strings (or
    another iterable of strings) each of them. Any other value is refused,
    and so is an id that is no task of the DAG: the attempt then fails as if
    the callable had raised. *)
Fixpoint task_ids_of (items : list pyobj) : outcome (list string) :=
  match items with
  | [] => Return []
  | PyStr id :: items' =>
      match task_ids_of items' with
      | Return ids => Return (id :: ids)
      | Raise e => Raise e
      end
  | _ :: _ =>
      Raise (AirflowException "'branch_task_ids' expected all task IDs are strings")
  end.

Definition branch_of (v : pyobj) : outcome (list string) :=
  match v with
  | PyNone => Return []
  | PyStr id => Return [id]
  | PyList items => task_ids_of items
  | PyDict items => Return (map fst items)   (* iterating a dict: its keys *)
  | PyResponse _ _ _ => Raise (Unmodelled "iteration over a response")
  | _ =>
      Raise (AirflowException
               "'branch_task_ids' must be either None, a task ID, or an Iterable of IDs")
  end.

Definition is_task (d : DAG) (id : string) : bool :=
  existsb (fun t => task_id t =? id) (tasks d).

Definition branch_task_ids (d : DAG) (v : pyobj) : outcome (list string) :=
  match branch_of v with
  | Return ids =>
      if forallb (is_task d) ids then Return ids
      else Raise (AirflowException
                    "'branch_task_ids' must contain only valid task_ids")
  | Raise e => Raise e
  end.

(** The tasks [ids] and the tasks downstream of them, up to [fuel - 1] edges
    away. *)
Fixpoint reach (d : DAG) (fuel : nat) (ids : list string) : list string :=
  match fuel with
  | O => []
  | S n => ids ++ reach d n (flat_map (downstream d) ids)
  end.

(** The tasks a branch follows: the tasks named and everything downstream of
    them (a path of the graph has fewer edges than the DAG has tasks). A
    value the check refuses names nothing; after an attempt that returned,
    the check has accepted it. *)
Definition followed (d : DAG) (v : pyobj) : list string :=
  match branch_task_ids d v with
  | Return ids => reach d (length (tasks d)) ids
  | Raise _ => []
  end.

Fixpoint skip_all_except (follow : list string) (ids : list string)
  (r : DagRun) : DagRun :=
  match ids with
  | [] => r
  | id :: ids' =>
      let r' := skip_all_except follow ids' r in
      if existsb (String.eqb id) follow then r' else set_state id skipped r'
  end.

(** An attempt of a branch operator: the callable, then the check of what it
    returned. *)
Definition branching (d : DAG) (f : M pyobj) : M pyobj :=
  bind f (fun v => bind (lift (branch_task_ids d v)) (fun _ => ret v)).

(** *** Email

    The names Airflow defines in the context of a template, and those Jinja
    defines in every template. An expression that starts with another name
    raises when the template is rendered; the value of an expression on a
    name of the context is not modelled. *)
Definition template_context : list string :=
  [ "conf"; "conn"; "dag"; "dag_run"; "data_interval_end";
    "data_interval_start"; "ds"; "ds_nodash"; "execution_date";
    "expanded_ti_count"; "inlets"; "logical_date"; "macros";
    "map_index_template"; "next_ds"; "next_ds_nodash";
    "next_execution_date"; "outlets"; "params"; "prev_data_interval_end_success";
    "prev_data_interval_start_success"; "prev_ds"; "prev_ds_nodash";
    "prev_end_date_success"; "prev_execution_date";
    "prev_execution_date_success"; "prev_start_date_success"; "run_id";
    "task"; "task_instance"; "task_instance_key_str"; "test_mode"; "ti";
    "tomorrow_ds"; "tomorrow_ds_nodash"; "triggering_dataset_events"; "ts";
    "ts_nodash"; "ts_nodash_with_tz"; "var"; "yesterday_ds";
    "yesterday_ds_nodash";
    "range"; "dict"; "lipsum"; "cycler"; "joiner"; "namespace" ].

Fixpoint render (t : template) : outcome string :=
  match t with
  | [] => Return EmptyString
  | Text s :: t' =>
      match render t' with
      | Return rest => Return (s ++ rest)%string
      | Raise e => Raise e
      end
  | Expression name _ :: _ =>
      if existsb (String.eqb name) template_context
      then Raise (Unmodelled "value of a template expression")
      else Raise (UndefinedError name)
  end.

(** An attempt of an email operator: the body is rendered, then the message
    is sent. *)
Definition send_email (html_content : template) : M pyobj :=
  bind (lift (render html_content)) (fun _ => ret PyNone).

Definition run_callable (d : DAG) (t : Task) (f : M pyobj) (r : DagRun)
  : DagRun :=
  let attempt :=
    match operator t with
    | BranchPythonOperator => branching d f
    | _ => f
    end in
  let '(res, w, n) := attempts attempt (max_tries d) (world r) in
  let r' := mkDagRun w (states r) ((task_id t, n) :: try_numbers r)
                     (notified r) in
  match res with
  | None => set_state (task_id t) failed r'
  | Some v =>
      match operator t with
      | BranchPythonOperator =>
          skip_all_except (followed d v) (downstream d (task_id t))
            (set_state (task_id t) success r')
      | _ => set_state (task_id t) success r'
      end
  end.

Definition execute (callables : string -> callable) (d : DAG) (t : Task)
  (r : DagRun) : DagRun :=
  match operator t, python_callable t with
  | EmailOperator html_content, _ =>
      let '(res, w, n) :=
        attempts (send_email html_content) (max_tries d) (world r) in
      let tries := (task_id t, n) :: try_numbers r in
      match res with
      | None =>
          set_state (task_id t) failed
            (mkDagRun w (states r) tries (notified r))
      | Some _ =>
          set_state (task_id t) success
            (mkDagRun w (states r) tries (task_id t :: notified r))
      end
  | _, Some f => run_callable d t (callables f (task_id t)) r
  | _, None => set_state (task_id t) failed r
  end.

(** One task of the run: left alone when a branch already skipped it,
    otherwise decided by its trigger rule. *)
Definition step (callables : string -> callable) (d : DAG) (r : DagRun)
  (t : Task) : DagRun :=
  match state_of (task_id t) r with
  | Some _ => r
  | None =>
      let ups := map (fun u => state_of u r) (upstream d (task_id t)) in
      match trigger_rule t with
      | ALL_SUCCESS =>
          if existsb is_failed ups
          then set_state (task_id t) upstream_failed r
          else if existsb is_skipped ups
          then set_state (task_id t) skipped r
          else if forallb is_success ups then execute callables d t r
          else r
      end
  end.

(** A run visits the tasks in the order of registration, which is a
    topological order of the workflow's graph. *)
Definition run_dag (callables : string -> callable) (d : DAG) (w : World)
  : DagRun :=
  fold_left (step callables d) (tasks d) (mkDagRun w [] [] []).

(** A task was executed when the run invoked it: it ended [success] or
    [failed], neither skipped nor [upstream_failed]. *)
Definition executed (id : string) (r : DagRun) : bool :=
  match state_of id r with
  | Some success | Some failed => true
  | _ => false
  end.

End Airflow.

(* ===================================================================== *)
(** * src/workflow/model_maintenance.py *)
(* ===================================================================== *)

Module ModelMaintenance.
Import Python Runtime Airflow.
Local Open Scope py_scope.
Local Open Scope string_scope.

(** The bodies of the two messages (lines 364-369 and 382-387, white space
    squeezed): text around one expression, a call of [Variable.get]. *)
Definition email_success_content : template :=
  [ Text ("<h3>Model retraining succeeded</h3> "
          ++ "<p>Retraining information:</p> <ul> "
          ++ "<li>Accuracy of the model in production (reference): ");
    Expression "Variable" "get";
    Text "%</li> </ul> <p>Please see the logs for more details.</p>" ].

Definition email_failure_content : template :=
  [ Text ("<h3>Model retraining failed</h3> "
          ++ "<p>Model retraining failed during validation. "
          ++ "Here are some details:</p> <ul> "
          ++ "<li>Accuracy of the model in production (reference): ");
    Expression "Variable" "get";
    Text ("%</li> </ul> <p>Please check the logs and correct any "
          ++ "identified issues.</p>") ].

(** ** The statements of the module, in the order of the file *)

Definition definitions : list stmt :=
  [ Assign "admin_username" (VariableGet "admin_username");
    Assign "admin_password" (VariableGet "admin_password");
    Assign "api_url" (VariableGet "api_url");
    Assign "current_accuracy" (VariableGet "current_accuracy");
    Assign "accuracy_threshold" (VariableGet "accuracy_threshold");
    Assign "dag"
      (NewDAG "car_accidents_prediction_model_retraining"
              3 (5 * 60) (24 * 60 * 60));
    Def "get_jwt_token";
    Def "recharge_data";
    Def "nope";
    Def "Check_accuracy";
    Def "backup";
    Def "retrain";
    Def "validate";
    Assign "t1"
      (NewOperator PythonOperator "get_jwt_token" (Some "get_jwt_token") "dag");
    Assign "t2"
      (NewOperator PythonOperator "recharge_data" (Some "recharge_data") "dag");
    Assign "t3"
      (NewOperator BranchPythonOperator "Check_accuracy"
                   (Some "Check_accuracy") "dag");
    Assign "t4_1" (NewOperator PythonOperator "backup" (Some "backup") "dag");
    Assign "t4_2" (NewOperator PythonOperator "nope" (Some "nope") "dag");
    Assign "t5" (NewOperator PythonOperator "retrain" (Some "retrain") "dag");
    Assign "t6"
      (NewOperator BranchPythonOperator "validate" (Some "validate") "dag");
    Assign "t7_1"
      (NewOperator (EmailOperator email_success_content) "email_success" None
                   "dag");
    Assign "t7_2"
      (NewOperator (EmailOperator email_failure_content) "email_failure" None
                   "dag") ].

(** The two dependency statements that end the file. *)
Definition dependencies : list stmt :=
  [ Expr (RShift (RShift (RShift (Name "t_1") (Name "t_2")) (Name "t_3"))
                 (ListOf ["t4_1"; "t4_2"]));
    Expr (RShift (RShift (RShift (Name "t4_1") (Name "t5")) (Name "t6"))
                 (ListOf ["t7_1"; "t7_2"])) ].

Definition module_body : list stmt := (definitions ++ dependencies)%list.

(** ** The graph the dependency statements describe

    The first dependency statement names [t_1], [t_2] and [t_3], which the
    module never binds. Read with the operators [t1], [t2] and [t3] in their
    place, the two statements wire the graph [workflow] below; the runs of
    this development are runs of that graph. *)

Definition as_bound (id : string) : string :=
  if id =? "t_1" then "t1"
  else if id =? "t_2" then "t2"
  else if id =? "t_3" then "t3"
  else id.

Fixpoint rename (f : string -> string) (e : expr) : expr :=
  match e with
  | Name id => Name (f id)
  | ListOf ids => ListOf (map f ids)
  | RShift l r => RShift (rename f l) (rename f r)
  | _ => e
  end.

Definition rename_stmt (f : string -> string) (s : stmt) : stmt :=
  match s with
  | Expr e => Expr (rename f e)
  | _ => s
  end.

Definition module_body_bound : list stmt :=
  (definitions ++ map (rename_stmt as_bound) dependencies)%list.

(** The operators, under the names the module binds them to. *)
Definition t1 : Task :=
  mkTask "get_jwt_token" PythonOperator (Some "get_jwt_token") ALL_SUCCESS.
Definition t2 : Task :=
  mkTask "recharge_data" PythonOperator (Some "recharge_data") ALL_SUCCESS.
Definition t3 : Task :=
  mkTask "Check_accuracy" BranchPythonOperator (Some "Check_accuracy")
         ALL_SUCCESS.
Definition t4_1 : Task :=
  mkTask "backup" PythonOperator (Some "backup") ALL_SUCCESS.
Definition t4_2 : Task :=
  mkTask "nope" PythonOperator (Some "nope") ALL_SUCCESS.
Definition t5 : Task :=
  mkTask "retrain" PythonOperator (Some "retrain") ALL_SUCCESS.
Definition t6 : Task :=
  mkTask "validate" BranchPythonOperator (Some "validate") ALL_SUCCESS.
Definition t7_1 : Task :=
  mkTask "email_success" (EmailOperator email_success_content) None
         ALL_SUCCESS.
Definition t7_2 : Task :=
  mkTask "email_failure" (EmailOperator email_failure_content) None
         ALL_SUCCESS.

Definition workflow : DAG :=
  mkDAG "car_accidents_prediction_model_retraining" 3 300 86400 None
    [t1; t2; t3; t4_1; t4_2; t5; t6; t7_1; t7_2]
    [ ("get_jwt_token", "recharge_data");
      ("recharge_data", "Check_accuracy");
      ("Check_accuracy", "backup");
      ("Check_accuracy", "nope");
      ("backup", "retrain");
      ("retrain", "validate");
      ("validate", "email_success");
      ("validate", "email_failure") ].

(** ** The task callables

    Each function is embedded statement by statement. Of a log message only
    the fixed text is kept; the fields an f-string reads are evaluated where
    reading them raises. *)

Section Callables.

(** The remote API and the Airflow Variables of the installation. *)
Variable srv : Server.
Variable variables : list (string * string).

(** A module global read from an Airflow Variable at import (the module is
    imported only when the Variable exists). *)
Definition module_global (key : string) : string :=
  match lookup key variables with
  | Some v => v
  | None => EmptyString
  end.

Definition admin_username : string := module_global "admin_username".
Definition admin_password : string := module_global "admin_password".
Definition api_url : string := module_global "api_url".

(** [Variable.get(key, default_var=d)]. *)
Definition Variable_get (key : string) (default_var : pyobj) : pyobj :=
  match lookup key variables with
  | Some v => PyStr v
  | None => default_var
  end.

(** Lines 99-119. *)
Definition get_jwt_token (ti : string) : M pyobj :=
  let token_url := api_url ++ "/token" in
  response <- requests_post srv token_url
                (Form admin_username admin_password) ;;
  status_code <- lift (getattr response "status_code") ;;
  if eq_int status_code 200 then
    body <- lift (call_method response "json" []) ;;
    token <- lift (call_method body "get" [PyStr "access_token"]) ;;
    xcom_push ti "token" token ;;
    ret token
  else
    logging ERROR "Error obtaining JWT token" ;;
    ret PyNone.

(** Lines 121-145. *)
Definition recharge_data (ti : string) : M pyobj :=
  token <- xcom_pull "get_jwt_token" "token" ;;
  let raw_url := api_url ++ "/raw" in
  let dataset_url := api_url ++ "/dataset" in
  resp_raw <- requests_post srv raw_url (Bearer token) ;;
  resp_dataset <- requests_post srv dataset_url (Bearer token) ;;
  raw_status <- lift (getattr resp_raw "status_code") ;;
  (if eq_int raw_status 200
   then logging INFO "Raw data have been imported with success."
   else logging ERROR "Error when importing raw data") ;;
  dataset_status <- lift (getattr resp_dataset "status_code") ;;
  (if eq_int dataset_status 200
   then logging INFO "Data have been processed with success"
   else logging ERROR "Error when processing raw data") ;;
  ret PyNone.

(** Lines 147-148. *)
Definition nope : M pyobj := ret PyNone.

(** Lines 150-175. [float] is applied to the response (line 165), and the
    response is compared with the threshold (line 170). *)
Definition Check_accuracy (ti : string) : M pyobj :=
  token <- xcom_pull "get_jwt_token" "token" ;;
  let accuracy_url := api_url ++ "/accuracy" in
  resp_accuracy <- requests_post srv accuracy_url (Bearer token) ;;
  value <- lift (float resp_accuracy) ;;
  xcom_push ti "current_accuracy" value ;;
  logging INFO "Checking accuracy difference... Current accuracy" ;;
  accuracy_threshold <-
    lift (float (Variable_get "accuracy_threshold" (PyInt 85))) ;;
  pass <- lift (ge resp_accuracy accuracy_threshold) ;;
  if pass : bool then
    logging INFO "Accuracy based on new data is above threshold" ;;
    ret (PyStr "nope")
  else
    logging INFO "Accuracy based on new data is under threshold" ;;
    ret (PyStr "backup").

(** Lines 177-194. *)
Definition backup (ti : string) : M pyobj :=
  token <- xcom_pull "get_jwt_token" "token" ;;
  let backup_url := api_url ++ "/backup" in
  resp_backup <- requests_post srv backup_url (Bearer token) ;;
  status_code <- lift (getattr resp_backup "status_code") ;;
  (if eq_int status_code 200
   then logging INFO "Current model has been saved as a backup with success."
   else logging ERROR "Error when saving current model") ;;
  ret PyNone.

(** Lines 196-224. The status tested at line 220 is read from
    [accuracy_url], a string, as are the fields of the message of line
    224. *)
Definition retrain (ti : string) : M pyobj :=
  token <- xcom_pull "get_jwt_token" "token" ;;
  let train_url := api_url ++ "/train" in
  let accuracy_url := api_url ++ "/accuracy" in
  resp_train <- requests_post srv train_url (Bearer token) ;;
  train_status <- lift (getattr resp_train "status_code") ;;
  (if eq_int train_status 200
   then logging INFO "Model has been trained and saved with success."
   else logging ERROR "Error while training the model. Unable to save it") ;;
  resp_accuracy <- requests_post srv accuracy_url (Bearer token) ;;
  status_code <- lift (getattr (PyStr accuracy_url) "status_code") ;;
  (if eq_int status_code 200 then
     value <- lift (float resp_accuracy) ;;
     xcom_push ti "current_accuracy" value ;;
     logging INFO "Accuracy has been updated with success."
   else
     _ <- lift (getattr (PyStr accuracy_url) "status_code") ;;
     _ <- lift (getattr (PyStr accuracy_url) "text") ;;
     logging ERROR "Error while updating accuracy") ;;
  ret PyNone.

(** Lines 226-269. The accuracy is read from [resp_accuracy.values] (lines
    249 and 254); the branch that reverses the models posts to
    [accuracy_url] (line 260) and reads the status from
    [reverse_backup_url], a string (lines 264-267). *)
Definition validate (ti : string) : M pyobj :=
  token <- xcom_pull "get_jwt_token" "token" ;;
  let accuracy_url := api_url ++ "/accuracy" in
  let reverse_backup_url := api_url ++ "/reverse_backup" in
  resp_accuracy <- requests_post srv accuracy_url (Bearer token) ;;
  status_code <- lift (getattr resp_accuracy "status_code") ;;
  (if eq_int status_code 200
   then logging INFO "Accuracy retrieved with success."
   else logging ERROR "Error while retrieveing accuracy") ;;
  values <- lift (getattr resp_accuracy "values") ;;
  accuracy <- lift (call_method values "get" [PyStr "accuracy"]) ;;
  value <- lift (float accuracy) ;;
  xcom_push ti "current_accuracy" value ;;
  logging INFO "Checking accuracy difference... Current accuracy" ;;
  accuracy_threshold <-
    lift (float (Variable_get "accuracy_threshold" (PyInt 85))) ;;
  values' <- lift (getattr resp_accuracy "values") ;;
  accuracy' <- lift (call_method values' "get" [PyStr "accuracy"]) ;;
  value' <- lift (float accuracy') ;;
  pass <- lift (ge value' accuracy_threshold) ;;
  if pass : bool then
    logging INFO "Accuracy of the new model is above the threshold" ;;
    ret (PyStr "email_success")
  else
    logging INFO "Accuracy of the new model is under the threshold" ;;
    resp_accuracy' <- requests_post srv accuracy_url (Bearer token) ;;
    logging INFO "Reversing models... Retrieving current model." ;;
    status_code' <- lift (getattr (PyStr reverse_backup_url) "status_code") ;;
    (if eq_int status_code' 200
     then logging INFO "Model reversed with success."
     else
       _ <- lift (getattr (PyStr reverse_backup_url) "status_code") ;;
       _ <- lift (getattr (PyStr reverse_backup_url) "text") ;;
       logging ERROR "Error while reversing model") ;;
    ret (PyStr "email_failure").

(** The functions the operators name in [python_callable]. *)
Definition callables (name : string) : callable :=
  if name =? "get_jwt_token" then get_jwt_token
  else if name =? "recharge_data" then recharge_data
  else if name =? "nope" then fun _ => nope
  else if name =? "Check_accuracy" then Check_accuracy
  else if name =? "backup" then backup
  else if name =? "retrain" then retrain
  else if name =? "validate" then validate
  else fun _ => raise (NameError name).

(** One run of the workflow, from a world with nothing sent or pushed. *)
Definition run : DagRun := run_dag callables workflow empty_world.

End Callables.

(** The requests a world holds for one URL. *)
Definition posts_to (u : string) (w : World) : list Request :=
  filter (fun rq => url rq =? u) (sent w).


(** The request [get_jwt_token] sends. *)
Definition token_request (vars : list (string * string)) : Request :=
  mkRequest (api_url vars ++ "/token")
            (Form (admin_username vars) (admin_password vars)).

(** The URL of the restore operation, as [validate] builds it. *)
Definition restore_url (vars : list (string * string)) : string :=
  api_url vars ++ "/reverse_backup".

(** A callable that raises whatever the world it runs in. *)
Definition always_raises (f : M pyobj) : Prop :=
  forall w, exists e w', f w = (Raise e, w').

(** The token the callables pull from the context: the value
    [get_jwt_token] pushed last, [None] when it pushed nothing. *)
Definition current_token (w : World) : pyobj :=
  match find_xcom "get_jwt_token" "token" (xcom w) with
  | Some v => v
  | None => PyNone
  end.

(** The URLs of a list of routes of the API. *)
Definition urls (vars : list (string * string)) (routes : list string)
  : list string :=
  map (fun r => api_url vars ++ r) routes.

(** The entries of the log with a given message. *)
Definition logged (msg : string) (w : World) : list (level * string) :=
  filter (fun e => snd e =? msg) (log w).

(** Between two worlds: nothing was pushed, and the requests sent in between
    went to the routes [routes] with the token of the context as bearer. *)
Definition asks (vars : list (string * string)) (routes : list string)
  (w w' : World) : Prop :=
  xcom w' = xcom w /\
  exists l, sent w' = (l ++ sent w)%list /\
    Forall (fun rq => In (url rq) (urls vars routes) /\
                      auth rq = Bearer (current_token w)) l.

End ModelMaintenance.

(* ===================================================================== *)
(** * src/app/main.py: the archive endpoints *)
(* ===================================================================== *)

Module Main.
Import Python.
Local Open Scope string_scope.

(** The files the two endpoints touch: the current model
    [./src/models/trained_model.joblib] (absent before any training) and the
    directories of [./src/models/archives/], in the order the operating
    system lists them, each with the model file copied into it, if any. The
    contents of a model file are opaque. *)
Definition Model : Type := string.

Record FileSystem : Type := mkFileSystem {
  trained_model : option Model;
  archives : list (string * option Model) }.

Definition archives_dir : string := "./src/models/archives/".

(** [Path.mkdir(parents=True, exist_ok=True)] on a directory of the
    archives. *)
Definition mkdir (name : string) (fs : FileSystem) : FileSystem :=
  match lookup name (archives fs) with
  | Some _ => fs
  | None => mkFileSystem (trained_model fs) (archives fs ++ [(name, None)])
  end.

Fixpoint store (name : string) (m : Model) (l : list (string * option Model))
  : list (string * option Model) :=
  match l with
  | [] => []
  | (n, c) :: l' =>
      if n =? name then (n, Some m) :: l' else (n, c) :: store name m l'
  end.

(** [shutil.copy] of the current model into a directory of the archives. *)
Definition copy_model_to_archive (name : string) (fs : FileSystem)
  : outcome unit * FileSystem :=
  match trained_model fs with
  | Some m =>
      (Return tt, mkFileSystem (trained_model fs) (store name m (archives fs)))
  | None => (Raise FileNotFoundError, fs)
  end.

(** [shutil.copy(source, './src/models/')] for a source taken from the
    listing of the archives: the entries of the listing are the directories
    [backup] creates, and [shutil.copy] copies files only. *)
Definition copy_archive_to_models (source : string) (fs : FileSystem)
  : outcome unit * FileSystem :=
  match lookup source (archives fs) with
  | Some _ => (Raise IsADirectoryError, fs)
  | None => (Raise FileNotFoundError, fs)
  end.

(** Calling a method of a path: [iterdir()] on the archives lists them. *)
Definition call_path (f : pyobj) (fs : FileSystem) : outcome (list string) :=
  match f with
  | PyMethod (PyPath p) m =>
      if m =? "iterdir" then
        if p =? archives_dir then Return (map fst (archives fs))
        else Raise FileNotFoundError
      else Raise (Unmodelled "method call")
  | _ => Raise (TypeError "object is not callable")
  end.

(** The endpoints. [user] is the outcome of [db_tools.get_user], read as
    the test [if not user] reads it (an exception of the lookup leaves the
    endpoint); [datetime_now] is the clock formatted [%Y%m%d%H%M%S]. *)
Definition backup (user : outcome bool) (datetime_now : string)
  (fs : FileSystem) : outcome unit * FileSystem :=
  match user with
  | Raise e => (Raise e, fs)
  | Return false => (Raise (HTTPException 400), fs)
  | Return true =>
      let destination_dir := "archive -" ++ datetime_now in
      copy_model_to_archive destination_dir (mkdir destination_dir fs)
  end.

Definition reverse_backup (user : outcome bool) (fs : FileSystem)
  : outcome unit * FileSystem :=
  match user with
  | Raise e => (Raise e, fs)
  | Return false => (Raise (HTTPException 400), fs)
  | Return true =>
      match getattr (PyPath archives_dir) "interdir" with
      | Raise e => (Raise e, fs)
      | Return interdir =>
          match call_path interdir fs with
          | Raise e => (Raise e, fs)
          | Return [] => (Raise IndexError, fs)
          | Return (source_dir :: _) => copy_archive_to_models source_dir fs
          end
      end
  end.

(** The archive made last: the directory with the greatest time stamp. *)
Fixpoint latest (l : list (string * option Model))
  : option (string * option Model) :=
  match l with
  | [] => None
  | x :: l' =>
      match latest l' with
      | Some y => if String.leb (fst x) (fst y) then Some y else Some x
      | None => Some x
      end
  end.

End Main.

(* ===================================================================== *)
(** * src/app/database.py: the table of users *)
(* ===================================================================== *)

Module Database.

(** Lines 45-51. *)
Inductive Role : Type := admin | employee | client.

(** A row of the table [users] (lines 54-63). *)
Record User : Type := mkUser {
  id : Z;
  username : string;
  nickname : option string;
  email : string;
  hashed_password : string;
  is_active : bool;
  role : Role }.

End Database.

(* ===================================================================== *)
(** * src/app/security_center.py: the access tokens *)
(* ===================================================================== *)

Module SecurityCenter.
Import Python.
Local Open Scope string_scope.

Definition ALGORITHM : string := "HS256".
Definition ACCESS_TOKEN_EXPIRE_MINUTES : Z := 30.

(** Instants (a [datetime], counted from the epoch) and durations (a
    [timedelta]) are numbers of microseconds, the resolution of both. *)
Definition timedelta (minutes : Z) : Z := (minutes * 60000000)%Z.

(** [if expires_delta:] a duration is true unless it is zero, [None] is
    false. *)
Definition truth (expires_delta : option Z) : bool :=
  match expires_delta with
  | Some delta => negb (delta =? 0)%Z
  | None => false
  end.

(** The instants a [datetime] holds: from the first microsecond of year 1
    to the last one of year 9999. *)
Definition datetime_min : Z := (-62135596800000000)%Z.
Definition datetime_max : Z := 253402300799999999%Z.

(** [now + expires_delta]; a sum out of the range of [datetime] raises. *)
Definition add (now : Z) (expires_delta : option Z) : outcome Z :=
  match expires_delta with
  | Some delta =>
      if ((datetime_min <=? now + delta) && (now + delta <=? datetime_max))%Z
      then Return (now + delta)%Z
      else Raise OverflowError
  | None =>
      Raise (TypeError "unsupported operand type(s) for +: datetime and None")
  end.

(** A value of the dictionary handed to [jwt.encode]: one the caller put
    there, or an instant. *)
Inductive claim : Type :=
| Claim (v : pyobj)
| Instant (t : Z).

(** [d.update({k: v})]: the value of a key the dictionary has is replaced
    where it stands, a new key is added last. *)
Fixpoint update (k : string) (v : claim) (d : list (string * claim))
  : list (string * claim) :=
  match d with
  | [] => [(k, v)]
  | (k', v') :: d' =>
      if k' =? k then (k', v) :: d' else (k', v') :: update k v d'
  end.

Section Jose.

(** The library [jose.jwt]: [encode(claims, key, algorithm)], and
    [decode(token, key, algorithms)], which gives the claims of the token or
    raises a [JWTError] ([None]: bad signature, expired token, malformed
    claims). [SECRET_KEY] is read from the environment, [None] when it is not
    set. *)
Variable jwt_encode
  : list (string * claim) -> option string -> string -> outcome string.
Variable jwt_decode
  : string -> option string -> list string -> option (list (string * pyobj)).
Variable SECRET_KEY : option string.

(** Lines 53-75; [now] is [datetime.now(timezone.utc)]. *)
Definition create_access_token (now : Z) (data : list (string * claim))
  (expires_delta : option Z) : outcome string :=
  let to_encode := data in
  match (if truth expires_delta then add now expires_delta
         else add now (Some (timedelta 15))) with
  | Raise e => Raise e
  | Return expire =>
      let to_encode := update "exp" (Instant expire) to_encode in
      jwt_encode to_encode SECRET_KEY ALGORITHM
  end.

(** Lines 80-121; [db] holds the rows of [users] in the order the database
    returns them. The subject of a token [jose] decodes is a string; the
    comparison of the column with another value is not modelled. *)
Definition get_user_with_token (db : list Database.User) (token : string)
  : outcome Database.User :=
  let credentials_exception := HTTPException 401 in
  match jwt_decode token SECRET_KEY [ALGORITHM] with
  | None => Raise credentials_exception
  | Some payload =>
      match call_method (PyDict payload) "get" [PyStr "sub"] with
      | Raise e => Raise e
      | Return PyNone => Raise credentials_exception
      | Return (PyStr username) =>
          match find (fun u => Database.username u =? username) db with
          | None => Raise credentials_exception
          | Some user => Return user
          end
      | Return _ => Raise (Unmodelled "subject that is no string")
      end
  end.

End Jose.

End SecurityCenter.

(* ===================================================================== *)
(** * Sample installations *)
(* ===================================================================== *)

Module Scenarios.
Import Python Runtime Airflow.
Local Open Scope string_scope.

(** The five Airflow Variables the module reads. *)
Definition variables : list (string * string) :=
  [ ("admin_username", "admin");
    ("admin_password", "secret");
    ("api_url", "http://127.0.0.1:8000");
    ("current_accuracy", "0.80");
    ("accuracy_threshold", "0.85") ].

Definition ends_with (suffix s : string) : bool :=
  (String.length suffix <=? String.length s)%nat
  && (substring (String.length s - String.length suffix)
                (String.length suffix) s =? suffix).

(** No request obtains a response. *)
Definition unreachable : Server := fun _ _ => None.

(** The API refuses the credentials: [/token] answers 400, the other routes
    401. *)
Definition rejects_login : Server :=
  fun _ rq =>
    if ends_with "/token" (url rq)
    then Some (mkAnswer 400 "Incorrect username or password" None)
    else Some (mkAnswer 401 "Not authenticated" None).

(** The API issues a token and reports the accuracy [a]; the other routes
    answer with [status]. *)
Definition api (a : Q) (status : Z) : Server :=
  fun _ rq =>
    if ends_with "/token" (url rq) then
      Some (mkAnswer 200 "token"
              (Some (PyDict [("access_token", PyStr "jwt");
                             ("token_type", PyStr "bearer")])))
    else if ends_with "/accuracy" (url rq) then
      Some (mkAnswer 200 "accuracy" (Some (PyDict [("accuracy", PyFloat a)])))
    else Some (mkAnswer status "" None).

(** The archives after two backups, and a freshly retrained model. *)
Definition two_archives : Main.FileSystem :=
  Main.mkFileSystem (Some "model retrained")
    [ ("archive -20240520080000", Some "model of 20 May");
      ("archive -20240521080000", Some "model of 21 May") ].

(** A proxy in front of the API answers every request with a page of its
    own, status 200. *)
Definition proxy_page : Server :=
  fun _ _ => Some (mkAnswer 200 "<html>Service unavailable</html>" None).

(** A mock of [jose.jwt]: the token is the subject in clear, [expired] is
    refused. *)
Definition jwt_encode (claims : list (string * SecurityCenter.claim))
  (key : option string) (algorithm : string) : outcome string :=
  match lookup "sub" claims with
  | Some (SecurityCenter.Claim (PyStr s)) => Return s
  | _ => Raise (Unmodelled "token without a subject")
  end.

Definition jwt_decode (token : string) (key : option string)
  (algorithms : list string) : option (list (string * pyobj)) :=
  if token =? "expired" then None else Some [("sub", PyStr token)].


(** Task callables whose first gate returns the list of both its
    branches. *)
Definition both_branches : string -> callable :=
  fun name _ =>
    if name =? "Check_accuracy" then ret (PyList [PyStr "backup"; PyStr "nope"])
    else if name =? "validate" then ret (PyStr "email_failure")
    else ret PyNone.

(** Task callables whose first gate chooses to do nothing. *)
Definition gate_holds : string -> callable :=
  fun name _ =>
    if name =? "Check_accuracy" then ret (PyStr "nope") else ret PyNone.

Definition users : list Database.User :=
  [ Database.mkUser 1 "admin" None "admin@example.com" "$2b$12$a" true
      Database.admin;
    Database.mkUser 2 "alice" (Some "al") "alice@example.com" "$2b$12$b" true
      Database.client;
    Database.mkUser 3 "alice" None "alice@example.org" "$2b$12$c" false
      Database.employee ].

End Scenarios.

(* ===================================================================== *)
(** * Properties *)
(* ===================================================================== *)

Import Python Runtime Airflow ModelMaintenance.
Local Open Scope string_scope.

(** ** Strings *)

Lemma append_eqb (s a b : string) : (s ++ a =? s ++ b) = (a =? b).
Proof.
  induction s as [|c s IH]; simpl; [reflexivity|].
  now rewrite Ascii.eqb_refl.
Qed.

Lemma lookup_in {A : Type} (k : string) (v : A) (l : list (string * A)) :
  lookup k l = Some v -> In (k, v) l.
Proof.
  induction l as [|[k' v'] l IH]; simpl; [discriminate|].
  destruct (String.eqb_spec k' k) as [->|_].
  - intros [= ->]. now left.
  - intros H. right. now apply IH.
Qed.

(** ** The attempts of a task *)

Section Attempts.
Variable f : M pyobj.

Lemma attempts_first_return (b : nat) (w w' : World) (v : pyobj) :
  f w = (Return v, w') -> attempts f (S b) w = (Some v, w', 1%nat).
Proof. intros H. simpl. now rewrite H. Qed.

Lemma attempts_all_raise (n : nat) :
  always_raises f -> forall w, exists w', attempts f n w = (None, w', n).
Proof.
  intros Hf. induction n as [|n IH]; intros w; simpl.
  - now exists w.
  - destruct (Hf w) as (e & w1 & ->).
    destruct (IH w1) as (w2 & ->). now exists w2.
Qed.

Lemma attempts_bound (n : nat) :
  forall w res w' k, attempts f n w = (res, w', k) -> (k <= n)%nat.
Proof.
  induction n as [|n IH]; simpl; intros w res w' k H.
  - injection H as _ _ <-. lia.
  - destruct (f w) as [[v|e] w1].
    + injection H as _ _ <-. lia.
    + destruct (attempts f n w1) as [[r w2] m] eqn:E.
      injection H as _ _ <-. apply IH in E. lia.
Qed.

(** A preorder on worlds that each attempt respects is respected by the
    attempts as a whole. *)
Variable R : World -> World -> Prop.
Hypothesis R_refl : forall w, R w w.
Hypothesis R_trans : forall a b c, R a b -> R b c -> R a c.

Lemma attempts_respect (n : nat) :
  (forall w, R w (snd (f w))) ->
  forall w res w' k, attempts f n w = (res, w', k) -> R w w'.
Proof.
  intros Hf. induction n as [|n IH]; simpl; intros w res w' k H.
  - injection H as _ <- _. apply R_refl.
  - specialize (Hf w). destruct (f w) as [[v|e] w1]; simpl in Hf.
    + now injection H as _ <- _.
    + destruct (attempts f n w1) as [[r w2] m] eqn:E.
      injection H as _ <- _. eapply R_trans; [exact Hf|]. eapply IH; eauto.
Qed.
End Attempts.

(** ** What the callables do to the world *)

(** Unfolds a callable down to the world it is applied to. *)
Ltac unfold_callable :=
  unfold get_jwt_token, recharge_data, nope, Check_accuracy, backup, retrain,
    validate, bind, ret, raise, lift, xcom_pull, xcom_push, requests_post,
    logging.

(** Splits on the XCom looked up, on the answers of the API and on the
    status tests. *)
Ltac split_paths :=
  repeat match goal with
  | |- context [find_xcom ?a ?b ?c] => destruct (find_xcom a b c); cbn
  | |- context [match ?srv ?h (mkRequest ?u ?c) with _ => _ end] =>
      destruct (srv h (mkRequest u c)); cbn
  | |- context [(?x =? 200)%Z] => destruct (x =? 200)%Z eqn:?; cbn
  end.

(** Between two worlds: nothing was pushed, the log only grew, and no
    request went to the URL [u]. *)
Definition keeps (u : string) (w w' : World) : Prop :=
  xcom w' = xcom w /\ incl (log w) (log w') /\ posts_to u w' = posts_to u w.

Lemma keeps_refl (u : string) (w : World) : keeps u w w.
Proof. repeat split. apply incl_refl. Qed.

Lemma keeps_trans (u : string) (a b c : World) :
  keeps u a b -> keeps u b c -> keeps u a c.
Proof.
  intros (H1 & H2 & H3) (H4 & H5 & H6).
  repeat split; [congruence|eapply incl_tran; eauto|congruence].
Qed.

Ltac solve_keeps :=
  unfold_callable; unfold keeps, posts_to; split_paths;
  (split;
   [ reflexivity
   | split;
     [ cbn; auto using incl_refl, incl_tl
     | cbn; rewrite ?append_eqb; reflexivity ] ]).

(** Every callable but [get_jwt_token] pushes nothing, and none of them
    sends a request to [/reverse_backup]. *)
Section Effects.
Variable srv : Server.
Variable vars : list (string * string).
Variable ti : string.

Lemma recharge_data_keeps (w : World) :
  keeps (restore_url vars) w (snd (recharge_data srv vars ti w)).
Proof. unfold restore_url. solve_keeps. Qed.

Lemma Check_accuracy_keeps (w : World) :
  keeps (restore_url vars) w (snd (Check_accuracy srv vars ti w)).
Proof. unfold restore_url. solve_keeps. Qed.

Lemma backup_keeps (w : World) :
  keeps (restore_url vars) w (snd (backup srv vars ti w)).
Proof. unfold restore_url. solve_keeps. Qed.

Lemma retrain_keeps (w : World) :
  keeps (restore_url vars) w (snd (retrain srv vars ti w)).
Proof. unfold restore_url. solve_keeps. Qed.

Lemma validate_keeps (w : World) :
  keeps (restore_url vars) w (snd (validate srv vars ti w)).
Proof. unfold restore_url. solve_keeps. Qed.

Lemma nope_keeps (w : World) : keeps (restore_url vars) w (snd (nope w)).
Proof. unfold restore_url. solve_keeps. Qed.

(** [get_jwt_token] pushes at most the token, once, and only when it
    returns. *)
Lemma get_jwt_token_effect (w : World) :
  incl (log w) (log (snd (get_jwt_token srv vars ti w))) /\
  posts_to (restore_url vars) (snd (get_jwt_token srv vars ti w))
  = posts_to (restore_url vars) w /\
  (xcom (snd (get_jwt_token srv vars ti w)) = xcom w \/
   exists v, fst (get_jwt_token srv vars ti w) = Return v /\
             xcom (snd (get_jwt_token srv vars ti w))
             = mkXCom ti "token" v :: xcom w).
Proof.
  unfold restore_url. unfold_callable. unfold posts_to.
  assert (Hu : forall l : list Request,
             filter (fun rq => url rq =? api_url vars ++ "/reverse_backup")
                    (mkRequest (api_url vars ++ "/token")
                       (Form (admin_username vars) (admin_password vars))
                     :: l)
             = filter (fun rq => url rq =? api_url vars ++ "/reverse_backup")
                      l).
  { intros l. cbn. now rewrite append_eqb. }
  destruct (srv _ _) as [a|]; cbn [fst snd sent xcom log];
    [|repeat split; [apply incl_refl|apply Hu|now left]].
  cbn. destruct (answer_status a =? 200)%Z; cbn [fst snd sent xcom log];
    [|repeat split; [apply incl_tl, incl_refl|apply Hu|now left]].
  destruct (answer_json a) as [j|]; cbn [fst snd sent xcom log];
    [|repeat split; [apply incl_refl|apply Hu|now left]].
  destruct (call_method j "get" _) as [tok|]; cbn [fst snd sent xcom log];
    repeat split; try apply incl_refl; try apply Hu; eauto.
Qed.

Lemma get_jwt_token_attempts (n : nat) :
  forall w res w' k,
    attempts (get_jwt_token srv vars ti) n w = (res, w', k) ->
    incl (log w) (log w') /\
    posts_to (restore_url vars) w' = posts_to (restore_url vars) w /\
    (xcom w' = xcom w \/ exists v, xcom w' = mkXCom ti "token" v :: xcom w).
Proof.
  induction n as [|n IH]; simpl; intros w res w' k H.
  - injection H as _ <- _. repeat split; [apply incl_refl|now left].
  - destruct (get_jwt_token_effect w) as (Hl & Hp & Hx).
    destruct (get_jwt_token srv vars ti w) as [[v|e] w1]; simpl in *.
    + injection H as _ <- _. repeat split; [exact Hl|exact Hp|].
      destruct Hx as [Hx|(v' & _ & Hx)]; eauto.
    + destruct (attempts _ n w1) as [[r w2] m] eqn:E.
      injection H as _ <- _. apply IH in E. destruct E as (Hl' & Hp' & Hx').
      destruct Hx as [Hx|(v' & Hv & _)]; [|discriminate].
      rewrite Hx in Hx'.
      repeat split; [eapply incl_tran; eauto|congruence|exact Hx'].
Qed.

(** A token request answered with a status other than 200 is logged, and
    [None] is returned. *)
Lemma get_jwt_token_rejected (w : World) (a : Answer) :
  srv (sent w) (token_request vars) = Some a ->
  answer_status a <> 200%Z ->
  get_jwt_token srv vars ti w
  = (Return PyNone,
     mkWorld (token_request vars :: sent w) (xcom w)
             ((ERROR, "Error obtaining JWT token") :: log w)).
Proof.
  intros Ha Hs. unfold_callable. fold (token_request vars). rewrite Ha. cbn.
  apply Z.eqb_neq in Hs. now rewrite Hs.
Qed.

Lemma get_jwt_token_no_response :
  (forall h, srv h (token_request vars) = None) ->
  always_raises (get_jwt_token srv vars ti).
Proof.
  intros H w. unfold_callable. fold (token_request vars). rewrite H. eauto.
Qed.

(** The two gates raise in every world: on the request when the API does
    not answer, otherwise on the first use of the response. *)
Lemma Check_accuracy_raises (w : World) :
  exists e w', Check_accuracy srv vars ti w = (Raise e, w') /\
    (e = ConnectionError \/
     e = TypeError "float() argument must be a string or a real number").
Proof. unfold_callable. split_paths; eauto. Qed.

Lemma Check_accuracy_always_raises :
  always_raises (Check_accuracy srv vars ti).
Proof.
  intros w. destruct (Check_accuracy_raises w) as (e & w' & H & _). eauto.
Qed.

Lemma validate_raises (w : World) :
  exists e w', validate srv vars ti w = (Raise e, w') /\
    (e = ConnectionError \/ e = AttributeError ClsResponse "values").
Proof. unfold_callable. split_paths; eauto. Qed.

(** [retrain] raises in every world as well: it reads [status_code] from
    the URL of the accuracy route, a string. *)
Lemma retrain_raises (w : World) :
  exists e w', retrain srv vars ti w = (Raise e, w') /\
    (e = ConnectionError \/ e = AttributeError ClsStr "status_code").
Proof. unfold_callable. split_paths; eauto. Qed.


(** When the reload requests are answered with an unexpected status,
    [recharge_data] logs both errors and returns. *)
Hypothesis raw_fails : forall h c, exists a,
  srv h (mkRequest (api_url vars ++ "/raw") c) = Some a /\
  answer_status a <> 200%Z.
Hypothesis dataset_fails : forall h c, exists a,
  srv h (mkRequest (api_url vars ++ "/dataset") c) = Some a /\
  answer_status a <> 200%Z.

Lemma recharge_data_unexpected (w : World) :
  exists w', recharge_data srv vars ti w = (Return PyNone, w') /\
    In (ERROR, "Error when importing raw data") (log w') /\
    In (ERROR, "Error when processing raw data") (log w').
Proof.
  unfold_callable.
  destruct (find_xcom _ _ _) as [tok|]; cbn.
  all: match goal with |- context [srv ?h (mkRequest ?u ?c)] =>
         destruct (raw_fails h c) as (a & -> & Ha) end; cbn.
  all: match goal with |- context [srv ?h (mkRequest ?u ?c)] =>
         destruct (dataset_fails h c) as (b & -> & Hb) end; cbn.
  all: apply Z.eqb_neq in Ha, Hb; rewrite Ha; cbn; rewrite Hb; cbn.
  all: eexists; split; [reflexivity|cbn; auto].
Qed.
End Effects.

(** ** Following a run of the workflow *)

(** The check of a branch operator leaves the world as the callable left
    it; it turns no raising callable into one that returns, and accepts what
    a returning attempt returned. *)
Lemma branching_world (d : DAG) (f : M pyobj) (w : World) :
  snd (branching d f w) = snd (f w).
Proof.
  unfold branching, bind, lift, ret.
  destruct (f w) as [[v|e] w']; [|reflexivity].
  destruct (branch_task_ids d v); reflexivity.
Qed.

Lemma branching_respect (R : World -> World -> Prop) (d : DAG) (f : M pyobj) :
  (forall w, R w (snd (f w))) -> forall w, R w (snd (branching d f w)).
Proof. intros H w. rewrite branching_world. apply H. Qed.

Lemma branching_raises (d : DAG) (f : M pyobj) :
  always_raises f -> always_raises (branching d f).
Proof.
  intros H w. destruct (H w) as (e & w' & E).
  unfold branching, bind. rewrite E. eauto.
Qed.

Lemma branching_returns (d : DAG) (f : M pyobj) (w w' : World) (v : pyobj) :
  branching d f w = (Return v, w') ->
  f w = (Return v, w') /\ exists ids, branch_task_ids d v = Return ids.
Proof.
  unfold branching, bind, lift, ret.
  destruct (f w) as [[v0|e] w0]; [|discriminate].
  destruct (branch_task_ids d v0) as [ids|e] eqn:Eb; [|discriminate].
  intros [= <- <-]. split; [reflexivity|eexists; exact Eb].
Qed.

(** The value the attempts of a task end with was returned by one of
    them. *)
Lemma attempts_returned (f : M pyobj) (n : nat) :
  forall w v w' k, attempts f n w = (Some v, w', k) ->
    exists w0, f w0 = (Return v, w').
Proof.
  induction n as [|n IH]; simpl; intros w v w' k H; [discriminate|].
  destruct (f w) as [[v0|e] w1] eqn:E.
  - injection H as <- <- _. eauto.
  - destruct (attempts f n w1) as [[r w2] m] eqn:E'.
    injection H as -> <- _. eapply IH; eauto.
Qed.

(** A computation that raises and leaves the world alone is attempted to
    the end of the budget, to no effect. *)
Lemma attempts_raise_unchanged (f : M pyobj) (e : exn) (n : nat) :
  (forall w, f w = (Raise e, w)) -> forall w, attempts f n w = (None, w, n).
Proof.
  intros Hf. induction n as [|n IH]; intros w; simpl; [reflexivity|].
  now rewrite Hf, IH.
Qed.

(** Neither message renders: both bodies call [Variable.get], and the
    context of a template defines no [Variable]. *)
Lemma email_success_fails (n : nat) (w : World) :
  attempts (send_email email_success_content) n w = (None, w, n).
Proof.
  now apply (attempts_raise_unchanged _ (UndefinedError "Variable")).
Qed.

Lemma email_failure_fails (n : nat) (w : World) :
  attempts (send_email email_failure_content) n w = (None, w, n).
Proof.
  now apply (attempts_raise_unchanged _ (UndefinedError "Variable")).
Qed.

Lemma skip_two (a b : string) (follow : list string) (r : DagRun) :
  skip_all_except follow [a; b] r
  = if existsb (String.eqb a) follow
    then if existsb (String.eqb b) follow then r else set_state b skipped r
    else set_state a skipped
           (if existsb (String.eqb b) follow then r
            else set_state b skipped r).
Proof. reflexivity. Qed.

Lemma run_dag_steps (cs : string -> callable) (w : World) :
  run_dag cs workflow w =
  step cs workflow (step cs workflow (step cs workflow (step cs workflow
    (step cs workflow (step cs workflow (step cs workflow (step cs workflow
      (step cs workflow (mkDagRun w [] [] []) t1) t2) t3) t4_1) t4_2) t5) t6)
        t7_1) t7_2.
Proof. reflexivity. Qed.

(** Evaluates the innermost [step] of a run whose earlier steps are known,
    leaving the attempts of its callable and the choice of its branch. *)
Ltac eval_step :=
  match goal with
  | |- context [step ?cs ?d ?r ?t] =>
      lazymatch r with
      | context [step] => fail
      | context [attempts] => fail
      | context [skip_all_except] => fail
      | _ =>
        let x := eval cbv -[attempts skip_all_except followed branching
                            send_email email_success_content
                            email_failure_content get_jwt_token
                            recharge_data nope Check_accuracy backup retrain
                            validate empty_world] in (step cs d r t) in
        change (step cs d r t) with x;
        rewrite ?email_success_fails, ?email_failure_fails; cbv beta iota
      end
  end.

(** Splits on the attempts of the task at hand: one of them returned, or
    all of them raised. *)
Ltac split_attempts :=
  match goal with
  | |- context [attempts ?f ?n ?w] =>
      let res := fresh "res" in let w' := fresh "w" in let n' := fresh "n" in
      let E := fresh "E" in let v := fresh "v" in
      destruct (attempts f n w) as [[res w'] n'] eqn:E;
      destruct res as [v|]; cbv beta iota
  end.

(** Splits on the tasks a branch follows: each of the two tasks downstream
    of it is followed or skipped. *)
Ltac split_branch :=
  match goal with
  | |- context [skip_all_except ?L [?a; ?b] ?r] =>
      let A := fresh "A" in let B := fresh "B" in
      rewrite (skip_two a b L r);
      destruct (existsb (String.eqb a) L) eqn:A;
      destruct (existsb (String.eqb b) L) eqn:B
  end.

(** The first gate never returns, so no run of the workflow's own callables
    goes past it. *)
Ltac first_gate_raises :=
  match goal with
  | E : attempts (branching ?d (Check_accuracy ?s ?v ?ti)) 4 ?w
        = (Some _, _, _) |- _ =>
      let w' := fresh "w" in let E' := fresh "E" in
      destruct (attempts_all_raise _ 4
                  (branching_raises d _
                     (Check_accuracy_always_raises s v ti)) w) as [w' E'];
      rewrite E' in E; discriminate E
  end.

(** The paths of a run, one goal each. *)
Ltac run_workflow :=
  rewrite run_dag_steps;
  repeat (eval_step; try split_attempts; try first_gate_raises;
          try split_branch).

(** Turns what is known of the attempts of each task into what they did to
    the XCom store, to the log and to the restore route. *)
Ltac learn_effects vars :=
  repeat match goal with
  | E : attempts (get_jwt_token _ _ _) _ _ = _ |- _ =>
      apply get_jwt_token_attempts in E
  | E : attempts (recharge_data _ _ _) _ _ = _ |- _ =>
      apply (attempts_respect _ _ (keeps_refl _) (keeps_trans _) _
               (recharge_data_keeps _ vars _)) in E
  | E : attempts (branching _ (Check_accuracy _ _ _)) _ _ = _ |- _ =>
      apply (attempts_respect _ _ (keeps_refl _) (keeps_trans _) _
               (branching_respect _ _ _ (Check_accuracy_keeps _ vars _)))
        in E
  | E : attempts (backup _ _ _) _ _ = _ |- _ =>
      apply (attempts_respect _ _ (keeps_refl _) (keeps_trans _) _
               (backup_keeps _ vars _)) in E
  | E : attempts (retrain _ _ _) _ _ = _ |- _ =>
      apply (attempts_respect _ _ (keeps_refl _) (keeps_trans _) _
               (retrain_keeps _ vars _)) in E
  | E : attempts (branching _ (validate _ _ _)) _ _ = _ |- _ =>
      apply (attempts_respect _ _ (keeps_refl _) (keeps_trans _) _
               (branching_respect _ _ _ (validate_keeps _ vars _))) in E
  | E : attempts nope _ _ = _ |- _ =>
      apply (attempts_respect _ _ (keeps_refl _) (keeps_trans _) _
               (nope_keeps vars)) in E
  end;
  unfold keeps in *; cbn [sent xcom log empty_world] in *;
  repeat match goal with H : _ /\ _ |- _ => destruct H end.

(** An entry logged earlier is in the log at the end. *)
Ltac in_log :=
  first [ solve [cbn; auto]
        | match goal with H : incl _ ?b |- In _ ?b => apply H; in_log end ].

(** Every run ends: each task of the graph is left in a terminal state,
    whatever the callables do. *)
Lemma run_reaches_terminal_state (cs : string -> callable) (w : World) :
  forall t, In t (tasks workflow) ->
    exists s, state_of (task_id t) (run_dag cs workflow w) = Some s.
Proof.
  intros t Hin. run_workflow.
  all: cbn in Hin;
    repeat (destruct Hin as [<-|Hin]; [eexists; reflexivity|]);
    destruct Hin.
Qed.


(** No run sends a request to the restore route. *)
Lemma restore_never_requested (srv : Server) (vars : list (string * string)) :
  posts_to (restore_url vars) (world (run srv vars)) = [].
Proof.
  unfold run. run_workflow.
  all: learn_effects vars; cbn [world].
  all: repeat match goal with H : posts_to _ ?a = posts_to _ ?b |- _ =>
         rewrite H; clear H end.
  all: reflexivity.
Qed.

(** The first gate fails whenever it runs, so nothing downstream of it is
    ever executed and no message is ever sent. *)
Lemma run_stops_at_first_gate (srv : Server) (vars : list (string * string)) :
  let r := run srv vars in
  state_of "Check_accuracy" r <> Some success /\
  Forall (fun id => executed id r = false)
         ["backup"; "nope"; "retrain"; "validate"; "email_success";
          "email_failure"] /\
  notified r = [].
Proof.
  cbv zeta. unfold run. run_workflow.
  all: split; [discriminate|split; [|reflexivity]].
  all: repeat constructor.
Qed.

(* ===================================================================== *)
(** * The graph *)
(* ===================================================================== *)

(** Read with [t1], [t2], [t3] for the unbound names, the module wires the
    graph [workflow]: this is the graph the runs below are runs of. *)
Lemma module_body_bound_imports (vars : list (string * string))
  (u p a c t : string) :
  lookup "admin_username" vars = Some u ->
  lookup "admin_password" vars = Some p ->
  lookup "api_url" vars = Some a ->
  lookup "current_accuracy" vars = Some c ->
  lookup "accuracy_threshold" vars = Some t ->
  import_module vars module_body_bound = Return (Some workflow).
Proof.
  intros Hu Hp Ha Hc Ht.
  unfold import_module, module_body_bound, definitions, dependencies.
  cbn [app exec exec_stmt eval map rename_stmt rename].
  rewrite Hu, Hp, Ha, Hc, Ht. reflexivity.
Qed.

(** The order of registration is a topological order of [workflow]. *)
Lemma workflow_topological :
  forall a b, In (a, b) (edges workflow) ->
    exists i j, (i < j)%nat /\
      option_map task_id (nth_error (tasks workflow) i) = Some a /\
      option_map task_id (nth_error (tasks workflow) j) = Some b.
Proof.
  intros a b H. cbn in H.
  repeat (destruct H as [[= <- <-]|H]);
    [ exists 0%nat, 1%nat | exists 1%nat, 2%nat | exists 2%nat, 3%nat
    | exists 2%nat, 4%nat | exists 3%nat, 5%nat | exists 5%nat, 6%nat
    | exists 6%nat, 7%nat | exists 6%nat, 8%nat | destruct H ];
    (split; [lia|split; reflexivity]).
Qed.

(** C9. Importing the workflow module does not build the graph: whatever
    the Airflow Variables, the import raises. When one of the five Variables
    read at the top of the module is missing it raises [KeyError]; when all
    are set it raises [NameError] on [t_1], the first name of the first
    dependency statement, which the module never binds, and no edge is
    wired. *)
Theorem import_module_raises (vars : list (string * string)) :
  import_module vars module_body = Raise (NameError "t_1") \/
  exists key, import_module vars module_body = Raise (KeyError key).
Proof.
  unfold import_module, module_body, definitions, dependencies.
  cbn [app exec exec_stmt eval].
  destruct (lookup "admin_username" vars); [|right; eexists; reflexivity].
  destruct (lookup "admin_password" vars); [|right; eexists; reflexivity].
  destruct (lookup "api_url" vars); [|right; eexists; reflexivity].
  destruct (lookup "current_accuracy" vars); [|right; eexists; reflexivity].
  destruct (lookup "accuracy_threshold" vars); [|right; eexists; reflexivity].
  left. reflexivity.
Qed.

Example import_with_all_variables :
  import_module Scenarios.variables module_body = Raise (NameError "t_1").
Proof. reflexivity. Qed.

(* ===================================================================== *)
(** * The two gates *)
(* ===================================================================== *)

(** C2. The pre-retrain gate selects no label. Whatever the API answers to
    the accuracy request, [Check_accuracy] raises before it compares
    anything: [ConnectionError] when the request obtains no response, and
    otherwise [TypeError], because it passes the response object itself to
    [float]. It returns neither ['nope'] nor ['backup']. *)
Theorem Check_accuracy_selects_no_branch (srv : Server)
  (vars : list (string * string)) (ti : string) (w : World) :
  exists e w', Check_accuracy srv vars ti w = (Raise e, w') /\
    (e = ConnectionError \/
     e = TypeError "float() argument must be a string or a real number").
Proof. apply Check_accuracy_raises. Qed.

(** An accuracy of 0.90 against a threshold of 0.85: the gate should pass. *)
Example Check_accuracy_above_threshold :
  fst (Check_accuracy (Scenarios.api (9 # 10) 200) Scenarios.variables
         "Check_accuracy" empty_world)
  = Raise (TypeError "float() argument must be a string or a real number").
Proof. reflexivity. Qed.

(** C1. The post-retrain gate selects no label and never calls the restore
    operation. Whatever the API answers, [validate] raises:
    [ConnectionError] when the accuracy request obtains no response, and
    otherwise [AttributeError], because it reads [values] from the response
    object, which has no such attribute. It returns neither
    ['email_success'] nor ['email_failure'], and it sends no request to
    [/reverse_backup]. *)
Theorem validate_selects_no_branch (srv : Server)
  (vars : list (string * string)) (ti : string) (w : World) :
  exists e w', validate srv vars ti w = (Raise e, w') /\
    (e = ConnectionError \/ e = AttributeError ClsResponse "values") /\
    posts_to (restore_url vars) w' = posts_to (restore_url vars) w.
Proof.
  destruct (validate_raises srv vars ti w) as (e & w' & H & He).
  exists e, w'. repeat split; [exact H|exact He|].
  pose proof (validate_keeps srv vars ti w) as (_ & _ & Hk).
  now rewrite H in Hk.
Qed.

(** A retrained model at 0.60 against a threshold of 0.85: the gate should
    restore the backup. *)
Example validate_below_threshold :
  validate (Scenarios.api (6 # 10) 200) Scenarios.variables "validate"
           empty_world
  = (Raise (AttributeError ClsResponse "values"),
     mkWorld [mkRequest "http://127.0.0.1:8000/accuracy" (Bearer PyNone)] []
             [(INFO, "Accuracy retrieved with success.")]).
Proof. reflexivity. Qed.

(* ===================================================================== *)
(** * Notifications *)
(* ===================================================================== *)

(** The label a branch callable is known to return decides what its
    operator follows. *)
Ltac known_labels H :=
  repeat match goal with
  | E : attempts (branching _ _) _ _ = (Some ?v, _, _) |- _ =>
      let w0 := fresh "w" in
      apply attempts_returned in E; destruct E as [w0 E];
      apply branching_returns in E; destruct E as [E _];
      apply H in E; destruct E as [E|E]; subst v
  end;
  repeat match goal with
  | X : existsb _ (followed workflow (PyStr _)) = _ |- _ =>
      vm_compute in X; try discriminate X; clear X
  end.




(* ===================================================================== *)
(** * Failures of the remote operations *)
(* ===================================================================== *)

(** C4, as the code handles a failed token request. When no token request
    obtains a response, [get_jwt_token] is attempted [1 + retries] times and
    marked [failed], every other task is [upstream_failed] and nothing is
    sent. When the API answers the token request with a status other than
    200, [get_jwt_token] logs the error and returns [None] on its first
    attempt: the task is [success], no token is pushed, and [recharge_data]
    is executed. *)
Theorem token_failure (srv : Server) (vars : list (string * string)) :
  let r := run srv vars in
  ((forall h, srv h (token_request vars) = None) ->
     state_of "get_jwt_token" r = Some failed /\
     lookup "get_jwt_token" (try_numbers r) = Some (max_tries workflow) /\
     (forall t, In t (tasks workflow) -> task_id t <> "get_jwt_token" ->
                state_of (task_id t) r = Some upstream_failed) /\
     notified r = []) /\
  (forall a, srv [] (token_request vars) = Some a ->
             answer_status a <> 200%Z ->
     state_of "get_jwt_token" r = Some success /\
     lookup "get_jwt_token" (try_numbers r) = Some 1%nat /\
     xcom (world r) = [] /\
     In (ERROR, "Error obtaining JWT token") (log (world r)) /\
     executed "recharge_data" r = true).
Proof.
  cbv zeta. split.
  - intros Hdown.
    destruct (attempts_all_raise _ 4
                (get_jwt_token_no_response srv vars "get_jwt_token" Hdown)
                empty_world) as [w' E'].
    unfold run. run_workflow.
    all: try discriminate E'.
    injection E' as _ ->.
    repeat split.
    intros t Hin Hne. cbn in Hin.
    repeat (destruct Hin as [<-|Hin]; [try reflexivity; now elim Hne|]).
    destruct Hin.
  - intros a Ha Hs.
    pose proof (attempts_first_return _ 3 _ _ _
                  (get_jwt_token_rejected srv vars "get_jwt_token"
                     empty_world a Ha Hs)) as E'.
    unfold run. run_workflow.
    all: try discriminate E'.
    all: injection E' as -> -> ->.
    all: learn_effects vars; cbn [world].
    all: repeat match goal with H : xcom ?a = _ |- _ =>
           rewrite H; clear H end.
    all: repeat split; auto.
    all: in_log.
Qed.

(** C4, a run in which the API refuses the credentials on every request:
    the token task succeeds after one attempt, the reload task downstream
    of it is executed and sends its two requests, and nothing is sent to
    anybody. *)
Lemma rejected_login_runs_downstream :
  let r := run Scenarios.rejects_login Scenarios.variables in
  state_of "get_jwt_token" r = Some success /\
  lookup "get_jwt_token" (try_numbers r) = Some 1%nat /\
  executed "recharge_data" r = true /\
  length (posts_to "http://127.0.0.1:8000/raw" (world r)) = 1%nat /\
  length (posts_to "http://127.0.0.1:8000/dataset" (world r)) = 1%nat /\
  notified r = [].
Proof. vm_compute. repeat split; reflexivity. Qed.

Lemma token_failure_witness :
  (let r := run Scenarios.unreachable Scenarios.variables in
   state_of "get_jwt_token" r = Some failed /\
   lookup "get_jwt_token" (try_numbers r) = Some (max_tries workflow) /\
   (forall t, In t (tasks workflow) -> task_id t <> "get_jwt_token" ->
              state_of (task_id t) r = Some upstream_failed) /\
   notified r = []) /\
  (let r := run Scenarios.rejects_login Scenarios.variables in
   state_of "get_jwt_token" r = Some success /\
   lookup "get_jwt_token" (try_numbers r) = Some 1%nat /\
   xcom (world r) = [] /\
   In (ERROR, "Error obtaining JWT token") (log (world r)) /\
   executed "recharge_data" r = true).
Proof.
  split.
  - apply (proj1 (token_failure Scenarios.unreachable Scenarios.variables)).
    intros h. reflexivity.
  - apply (proj2 (token_failure Scenarios.rejects_login Scenarios.variables)
             (mkAnswer 400 "Incorrect username or password" None)).
    + reflexivity.
    + discriminate.
Defined.




(** C6, as [recharge_data] handles an unexpected status. In a run in which
    the token task succeeded and the API answers the two reload requests
    with a status other than 200, [recharge_data] logs an error for each of
    them and returns: its task is [success] after one attempt, and its
    dependent [Check_accuracy] is executed. *)
Theorem reload_failure (srv : Server) (vars : list (string * string)) :
  let r := run srv vars in
  state_of "get_jwt_token" r = Some success ->
  (forall h c, exists a,
     srv h (mkRequest (api_url vars ++ "/raw") c) = Some a /\
     answer_status a <> 200%Z) ->
  (forall h c, exists a,
     srv h (mkRequest (api_url vars ++ "/dataset") c) = Some a /\
     answer_status a <> 200%Z) ->
  state_of "recharge_data" r = Some success /\
  lookup "recharge_data" (try_numbers r) = Some 1%nat /\
  In (ERROR, "Error when importing raw data") (log (world r)) /\
  In (ERROR, "Error when processing raw data") (log (world r)) /\
  executed "Check_accuracy" r = true.
Proof.
  cbv zeta. intros Htok Hraw Hds. revert Htok.
  unfold run. run_workflow.
  all: intros Htok; try discriminate Htok.
  all: match goal with
       | E : attempts (recharge_data _ _ _) _ ?w = _ |- _ =>
           destruct (recharge_data_unexpected srv vars "recharge_data"
                       Hraw Hds w) as (w' & Hr & Hl1 & Hl2);
           rewrite (attempts_first_return _ 3 _ _ _ Hr) in E;
           try discriminate E; injection E as <- <- <-
       end.
  all: learn_effects vars; cbn [world].
  all: repeat split; auto; in_log.
Qed.

(** C6, a run in which the reload operation fails and its task does not:
    the API answers every reload request with 500, [recharge_data] is
    [success], [Check_accuracy] downstream of it is executed rather than
    skipped, and nothing is sent to anybody. *)
Lemma reload_failure_not_failed :
  let r := run (Scenarios.api (9 # 10) 500) Scenarios.variables in
  state_of "recharge_data" r = Some success /\
  executed "Check_accuracy" r = true /\
  length (posts_to "http://127.0.0.1:8000/accuracy" (world r)) = 4%nat /\
  notified r = [].
Proof. vm_compute. auto. Qed.

Lemma reload_failure_witness :
  let r := run (Scenarios.api (9 # 10) 500) Scenarios.variables in
  state_of "recharge_data" r = Some success /\
  lookup "recharge_data" (try_numbers r) = Some 1%nat /\
  In (ERROR, "Error when importing raw data") (log (world r)) /\
  In (ERROR, "Error when processing raw data") (log (world r)) /\
  executed "Check_accuracy" r = true.
Proof.
  apply (reload_failure (Scenarios.api (9 # 10) 500) Scenarios.variables).
  - reflexivity.
  - intros h c. eexists. split; [reflexivity|discriminate].
  - intros h c. eexists. split; [reflexivity|discriminate].
Defined.

(* ===================================================================== *)
(** * The run context *)
(* ===================================================================== *)




(* ===================================================================== *)
(** * Restoring the archived model *)
(* ===================================================================== *)

(** C8. The restore endpoint restores nothing. Whatever the user lookup
    gives and whatever the archives hold, [reverse_backup] raises and leaves
    the files as they were. For an authenticated user the exception is
    [AttributeError]: the endpoint calls [interdir] on the path of the
    archives, and a path has no such method ([iterdir] is the one that lists
    a directory). *)
Theorem reverse_backup_raises (user : outcome bool) (fs : Main.FileSystem) :
  (exists e, Main.reverse_backup user fs = (Raise e, fs)) /\
  Main.reverse_backup (Return true) fs
  = (Raise (AttributeError ClsPosixPath "interdir"), fs).
Proof.
  split; [|reflexivity].
  destruct user as [[|]|e]; eexists; reflexivity.
Qed.

(** After two backups and a retraining, the latest archive holds the model
    of 21 May; the restore leaves the retrained model in place. *)
Example reverse_backup_after_two_backups :
  Main.latest (Main.archives Scenarios.two_archives)
  = Some ("archive -20240521080000", Some "model of 21 May") /\
  Main.trained_model
    (snd (Main.reverse_backup (Return true) Scenarios.two_archives))
  = Some "model retrained".
Proof. split; reflexivity. Qed.

(** The backup endpoint archives the current model under the time stamp. *)
Example backup_archives_current_model :
  Main.backup (Return true) "20240522080000" Scenarios.two_archives
  = (Return tt,
     Main.mkFileSystem (Some "model retrained")
       [ ("archive -20240520080000", Some "model of 20 May");
         ("archive -20240521080000", Some "model of 21 May");
         ("archive -20240522080000", Some "model retrained") ]).
Proof. reflexivity. Qed.

(* ===================================================================== *)
(** * The token in the run context *)
(* ===================================================================== *)

(** X1. A token request answered 200 with a JSON object makes
    [get_jwt_token] return the value of the key [access_token] of that object
    ([None] when the object has no such key) after one request and without
    logging; the value is pushed under the key [token], and a pull of that key
    from the same task then returns it. *)
Theorem get_jwt_token_pushes_token (srv : Server)
  (vars : list (string * string)) (ti : string) (w : World) (a : Answer)
  (items : list (string * pyobj)) :
  srv (sent w) (token_request vars) = Some a ->
  answer_status a = 200%Z ->
  answer_json a = Some (PyDict items) ->
  let token := match lookup "access_token" items with
               | Some v => v
               | None => PyNone
               end in
  let w' := mkWorld (token_request vars :: sent w)
                    (mkXCom ti "token" token :: xcom w) (log w) in
  get_jwt_token srv vars ti w = (Return token, w') /\
  xcom_pull ti "token" w' = (Return token, w').
Proof.
  intros Ha Hs Hj token w'. split.
  - unfold_callable. fold (token_request vars). rewrite Ha. cbn.
    rewrite Hs, Hj. cbn. subst token w'.
    destruct (lookup "access_token" items); reflexivity.
  - unfold xcom_pull. subst w'.
    cbn [xcom find_xcom xcom_task xcom_key xcom_value].
    rewrite !String.eqb_refl. reflexivity.
Qed.

Lemma get_jwt_token_pushes_token_witness :
  get_jwt_token (Scenarios.api (9 # 10) 200) Scenarios.variables
    "get_jwt_token" empty_world
  = (Return (PyStr "jwt"),
     mkWorld [token_request Scenarios.variables]
             [mkXCom "get_jwt_token" "token" (PyStr "jwt")] []) /\
  xcom_pull "get_jwt_token" "token"
    (mkWorld [token_request Scenarios.variables]
             [mkXCom "get_jwt_token" "token" (PyStr "jwt")] [])
  = (Return (PyStr "jwt"),
     mkWorld [token_request Scenarios.variables]
             [mkXCom "get_jwt_token" "token" (PyStr "jwt")] []).
Proof.
  apply (get_jwt_token_pushes_token (Scenarios.api (9 # 10) 200)
           Scenarios.variables "get_jwt_token" empty_world
           (mkAnswer 200 "token"
              (Some (PyDict [("access_token", PyStr "jwt");
                             ("token_type", PyStr "bearer")])))
           [("access_token", PyStr "jwt"); ("token_type", PyStr "bearer")]);
    reflexivity.
Defined.

(** X2. A token request answered 200 with a body that is no JSON object
    makes [get_jwt_token] raise: [JSONDecodeError] when the body is not JSON,
    [AttributeError] on [get] when it decodes to anything but an object.
    Nothing is pushed and nothing is logged. (An answer with another status
    is logged and the callable returns.) *)
Theorem get_jwt_token_malformed_body (srv : Server)
  (vars : list (string * string)) (ti : string) (w : World) (a : Answer) :
  srv (sent w) (token_request vars) = Some a ->
  answer_status a = 200%Z ->
  (forall items, answer_json a <> Some (PyDict items)) ->
  get_jwt_token srv vars ti w
  = (Raise match answer_json a with
           | None => JSONDecodeError
           | Some body => AttributeError (class_of body) "get"
           end,
     mkWorld (token_request vars :: sent w) (xcom w) (log w)).
Proof.
  intros Ha Hs Hj. unfold_callable. fold (token_request vars). rewrite Ha.
  cbn. rewrite Hs. cbn.
  destruct (answer_json a) as [[]|]; try reflexivity.
  now destruct (Hj items).
Qed.

Lemma get_jwt_token_malformed_body_witness :
  get_jwt_token Scenarios.proxy_page Scenarios.variables "get_jwt_token"
    empty_world
  = (Raise JSONDecodeError,
     mkWorld [token_request Scenarios.variables] [] []).
Proof.
  apply (get_jwt_token_malformed_body Scenarios.proxy_page
           Scenarios.variables "get_jwt_token" empty_world
           (mkAnswer 200 "<html>Service unavailable</html>" None));
    [reflexivity|reflexivity|discriminate].
Defined.

(* ===================================================================== *)
(** * Reloading and retraining *)
(* ===================================================================== *)

Section Reload.
Variable srv : Server.
Variable vars : list (string * string).
Variable ti : string.

(** X3. [recharge_data] sends the request to [/raw], then the request to
    [/dataset], both with the token of the context as bearer, before it looks
    at either status. Without a response to the first it raises
    [ConnectionError] and the second is not sent; without a response to the
    second it raises [ConnectionError] and logs nothing; when both are
    answered it returns [None] whatever the two statuses, having sent these
    two requests, pushed nothing and logged two entries. *)
Theorem recharge_data_requests (w : World) :
  let raw := mkRequest (api_url vars ++ "/raw") (Bearer (current_token w)) in
  let dataset :=
    mkRequest (api_url vars ++ "/dataset") (Bearer (current_token w)) in
  (srv (sent w) raw = None ->
   recharge_data srv vars ti w
   = (Raise ConnectionError, mkWorld (raw :: sent w) (xcom w) (log w))) /\
  (srv (sent w) raw <> None -> srv (raw :: sent w) dataset = None ->
   recharge_data srv vars ti w
   = (Raise ConnectionError,
      mkWorld (dataset :: raw :: sent w) (xcom w) (log w))) /\
  (srv (sent w) raw <> None -> srv (raw :: sent w) dataset <> None ->
   exists w', recharge_data srv vars ti w = (Return PyNone, w') /\
     sent w' = dataset :: raw :: sent w /\ xcom w' = xcom w /\
     exists e1 e2, log w' = e2 :: e1 :: log w).
Proof.
  unfold current_token. unfold_callable.
  destruct (find_xcom _ _ _) as [tok|]; cbn.
  all: repeat split.
  all: try (intros H; rewrite H; reflexivity).
  all: intros H1 H2;
    match goal with |- context [srv ?h (mkRequest ?u ?c)] =>
      destruct (srv h (mkRequest u c)) as [a|]; [cbn|contradiction] end.
  all: try (rewrite H2; reflexivity).
  all: match goal with |- context [srv ?h (mkRequest ?u ?c)] =>
      destruct (srv h (mkRequest u c)) as [b|]; [cbn|contradiction] end.
  all: destruct (answer_status a =? 200)%Z, (answer_status b =? 200)%Z; cbn;
    (eexists; split; [reflexivity|]; cbn; repeat split; eauto).
Qed.

(** An attempt of [retrain] whose training request is answered 200 logs the
    success of the training, and raises. *)
Lemma retrain_trains_then_raises (w : World) :
  (forall h c, exists a,
     srv h (mkRequest (api_url vars ++ "/train") c) = Some a /\
     answer_status a = 200%Z) ->
  exists e w', retrain srv vars ti w = (Raise e, w') /\
    length (posts_to (api_url vars ++ "/train") w')
    = S (length (posts_to (api_url vars ++ "/train") w)) /\
    length (logged "Model has been trained and saved with success." w')
    = S (length (logged "Model has been trained and saved with success." w)).
Proof.
  intros H. unfold posts_to, logged. unfold_callable.
  destruct (find_xcom _ _ _) as [tok|]; cbn.
  all: match goal with |- context [srv ?h (mkRequest ?u ?c)] =>
         destruct (H h c) as (a & -> & ->) end; cbn.
  all: match goal with |- context [srv ?h (mkRequest ?u ?c)] =>
         destruct (srv h (mkRequest u c)) end; cbn.
  all: do 2 eexists; split; [reflexivity|]; cbn.
  all: rewrite !append_eqb; cbn; split; reflexivity.
Qed.
End Reload.

(** A quantity every attempt raises by one, while every attempt raises, is
    raised by the number of attempts. *)
Lemma attempts_count (f : M pyobj) (g : World -> nat) (n : nat) :
  (forall w, exists e w', f w = (Raise e, w') /\ g w' = S (g w)) ->
  forall w, exists w',
    attempts f n w = (None, w', n) /\ g w' = (n + g w)%nat.
Proof.
  intros Hf. induction n as [|n IH]; intros w; simpl.
  - now exists w.
  - destruct (Hf w) as (e & w1 & -> & H1).
    destruct (IH w1) as (w2 & -> & H2). exists w2. split; [reflexivity|lia].
Qed.

(** Attempts that all raise use the whole budget. *)
Lemma attempts_exhausted (f : M pyobj) (n : nat) :
  forall w w' k, attempts f n w = (None, w', k) -> k = n.
Proof.
  induction n as [|n IH]; simpl; intros w w' k H.
  - now injection H as _ <-.
  - destruct (f w) as [[v|e] w1]; [discriminate|].
    destruct (attempts f n w1) as [[r w2] m] eqn:E.
    injection H as -> _ <-. f_equal. eapply IH; eauto.
Qed.

(** X4. When the API answers the training request with 200, a [retrain]
    task makes all its [1 + retries] attempts and none returns: each attempt
    has the model trained again and logs the success of the training, then
    raises on the status it reads from the URL of the accuracy route. After
    the four attempts [/train] has been requested four more times and the
    success has been logged four more times. *)
Theorem retrain_repeats_training (srv : Server)
  (vars : list (string * string)) (ti : string) (w : World) :
  (forall h c, exists a,
     srv h (mkRequest (api_url vars ++ "/train") c) = Some a /\
     answer_status a = 200%Z) ->
  exists w',
    attempts (retrain srv vars ti) (max_tries workflow) w
    = (None, w', max_tries workflow) /\
    length (posts_to (api_url vars ++ "/train") w')
    = (max_tries workflow
       + length (posts_to (api_url vars ++ "/train") w))%nat /\
    length (logged "Model has been trained and saved with success." w')
    = (max_tries workflow
       + length (logged "Model has been trained and saved with success."
                   w))%nat.
Proof.
  intros H.
  destruct (attempts_count (retrain srv vars ti)
              (fun w => length (posts_to (api_url vars ++ "/train") w))
              (max_tries workflow)) with (w := w) as (w1 & E1 & H1).
  { intros w0. destruct (retrain_trains_then_raises srv vars ti w0 H)
      as (e & w' & E & Hp & _). eauto. }
  destruct (attempts_count (retrain srv vars ti)
              (fun w => length (logged
                 "Model has been trained and saved with success." w))
              (max_tries workflow)) with (w := w) as (w2 & E2 & H2).
  { intros w0. destruct (retrain_trains_then_raises srv vars ti w0 H)
      as (e & w' & E & _ & Hl). eauto. }
  rewrite E1 in E2. injection E2 as <-. eauto.
Qed.

Lemma retrain_repeats_training_witness :
  exists w',
    attempts (retrain (Scenarios.api (9 # 10) 200) Scenarios.variables
                "retrain") (max_tries workflow) empty_world
    = (None, w', max_tries workflow) /\
    length (posts_to (api_url Scenarios.variables ++ "/train") w')
    = (max_tries workflow
       + length (posts_to (api_url Scenarios.variables ++ "/train")
                   empty_world))%nat /\
    length (logged "Model has been trained and saved with success." w')
    = (max_tries workflow
       + length (logged "Model has been trained and saved with success."
                   empty_world))%nat.
Proof.
  apply (retrain_repeats_training (Scenarios.api (9 # 10) 200)
           Scenarios.variables "retrain" empty_world).
  intros h c. exists (mkAnswer 200 "" None). split; reflexivity.
Defined.

(* ===================================================================== *)
(** * The requests of a run *)
(* ===================================================================== *)

Lemma asks_refl (vars : list (string * string)) (routes : list string)
  (w : World) : asks vars routes w w.
Proof. split; [reflexivity|]. now exists []. Qed.

Lemma asks_trans (vars : list (string * string)) (routes : list string)
  (a b c : World) :
  asks vars routes a b -> asks vars routes b c -> asks vars routes a c.
Proof.
  intros (Hx & l & Hl & Hf) (Hx' & l' & Hl' & Hf').
  split; [congruence|]. exists (l' ++ l)%list. split.
  - now rewrite Hl', Hl, app_assoc.
  - apply Forall_app. split; [|exact Hf].
    unfold current_token in *. now rewrite Hx in Hf'.
Qed.

Lemma filter_none {A : Type} (f : A -> bool) (l : list A) :
  Forall (fun x => f x = false) l -> filter f l = [].
Proof. induction 1 as [|x l Hx _ IH]; simpl; [|rewrite Hx]; auto. Qed.

(** Names the requests a callable added to those sent. *)
Ltac requests_listed :=
  split; [reflexivity|];
  repeat (apply Forall_cons; [split; [cbn; auto|reflexivity]|]);
  apply Forall_nil.

Ltac sent_since :=
  first [ solve [exists []; requests_listed]
        | solve [eexists [_]; requests_listed]
        | solve [eexists [_; _]; requests_listed] ].

Section Requests.
Variable srv : Server.
Variable vars : list (string * string).
Variable ti : string.

Lemma recharge_data_asks (w : World) :
  asks vars ["/raw"; "/dataset"; "/accuracy"] w
    (snd (recharge_data srv vars ti w)).
Proof.
  unfold asks, urls, current_token. unfold_callable. split_paths.
  all: split; [reflexivity|].
  all: sent_since.
Qed.

Lemma Check_accuracy_asks (w : World) :
  asks vars ["/raw"; "/dataset"; "/accuracy"] w
    (snd (Check_accuracy srv vars ti w)).
Proof.
  unfold asks, urls, current_token. unfold_callable. split_paths.
  all: split; [reflexivity|].
  all: sent_since.
Qed.

(** The attempts of [get_jwt_token] send the token request, and nothing
    else. *)
Lemma get_jwt_token_asks (n : nat) :
  forall w res w' k,
    attempts (get_jwt_token srv vars ti) n w = (res, w', k) ->
    exists l, sent w' = (l ++ sent w)%list /\
              Forall (eq (token_request vars)) l.
Proof.
  induction n as [|n IH]; simpl; intros w res w' k H.
  - injection H as _ <- _. now exists [].
  - assert (Hs : sent (snd (get_jwt_token srv vars ti w))
                 = token_request vars :: sent w).
    { unfold_callable. fold (token_request vars).
      destruct (srv _ _) as [a|]; cbn; [|reflexivity].
      destruct (answer_status a =? 200)%Z; cbn; [|reflexivity].
      destruct (answer_json a) as [j|]; cbn; [|reflexivity].
      destruct (call_method j "get" _); reflexivity. }
    destruct (get_jwt_token srv vars ti w) as [[v|e] w1]; simpl in Hs.
    + injection H as _ <- _. exists [token_request vars]. split; auto.
    + destruct (attempts _ n w1) as [[r w2] m] eqn:E.
      injection H as _ <- _. apply IH in E. destruct E as (l & Hl & Hf).
      exists (l ++ [token_request vars])%list. split.
      * now rewrite Hl, Hs, <- app_assoc.
      * apply Forall_app. auto.
Qed.
End Requests.

(** The requests of a run: the token requests first, then requests to the
    reload and accuracy routes that carry the token of the context. *)
Lemma run_requests (srv : Server) (vars : list (string * string)) :
  exists first later,
    sent (world (run srv vars)) = (later ++ first)%list /\
    Forall (eq (token_request vars)) first /\
    Forall (fun rq =>
              In (url rq) (urls vars ["/raw"; "/dataset"; "/accuracy"]) /\
              auth rq = Bearer (current_token (world (run srv vars))))
           later.
Proof.
  unfold run. run_workflow.
  all: repeat match goal with
       | E : attempts (get_jwt_token _ _ _) _ _ = _ |- _ =>
           apply get_jwt_token_asks in E; destruct E as (l0 & Hl0 & Hf0)
       | E : attempts (recharge_data _ _ _) _ _ = _ |- _ =>
           apply (attempts_respect _ _ (asks_refl vars _) (asks_trans vars _)
                    _ (recharge_data_asks _ vars _)) in E
       | E : attempts (branching _ (Check_accuracy _ _ _)) _ _ = _ |- _ =>
           apply (attempts_respect _ _ (asks_refl vars _) (asks_trans vars _)
                    _ (branching_respect _ _ _ (Check_accuracy_asks _ vars _)))
             in E
       end.
  all: cbn [world sent empty_world] in *; rewrite app_nil_r in Hl0.
  all: repeat match goal with
       | E0 : asks _ _ ?a ?b, E1 : asks _ _ ?b ?c |- _ =>
           pose proof (asks_trans _ _ _ _ _ E0 E1); clear E0 E1
       end.
  all: try match goal with
       | E : asks _ _ _ _ |- _ =>
           destruct E as (Hx & l & Hl & Hf); exists l0, l;
           rewrite Hl, Hl0; unfold current_token in *; rewrite Hx; now auto
       end.
  all: exists l0, []; auto.
Qed.

(** X5. Every request of a run goes to one of four routes of the API:
    [/token], [/raw], [/dataset] or [/accuracy]. Whatever the API answers, no
    run asks it to archive the model ([/backup]) or to train one
    ([/train]). *)
Theorem run_requests_routes (srv : Server) (vars : list (string * string)) :
  Forall (fun rq =>
            In (url rq)
               (urls vars ["/token"; "/raw"; "/dataset"; "/accuracy"]))
         (sent (world (run srv vars))) /\
  posts_to (api_url vars ++ "/backup") (world (run srv vars)) = [] /\
  posts_to (api_url vars ++ "/train") (world (run srv vars)) = [].
Proof.
  destruct (run_requests srv vars) as (first & later & E & Hf & Hl).
  unfold posts_to. rewrite E. clear E.
  assert (H : Forall (fun rq => In (url rq)
                (urls vars ["/token"; "/raw"; "/dataset"; "/accuracy"]))
                (later ++ first)%list).
  { apply Forall_app. split.
    - eapply Forall_impl; [|exact Hl]. cbn. intros rq [H _]. tauto.
    - eapply Forall_impl; [|exact Hf]. intros rq <-. now left. }
  split; [exact H|].
  split; apply filter_none; (eapply Forall_impl; [|exact H]);
    cbn; intros rq [<-|[<-|[<-|[<-|[]]]]]; now rewrite append_eqb.
Qed.

(** X6. The requests of a run are the token requests of [get_jwt_token],
    sent first, and after them requests that all carry as bearer the token
    the context holds at the end of the run: the value [get_jwt_token]
    pushed, or [None] when it pushed nothing. *)
Theorem run_bearer_token (srv : Server) (vars : list (string * string)) :
  exists first later,
    sent (world (run srv vars)) = (later ++ first)%list /\
    Forall (eq (token_request vars)) first /\
    Forall (fun rq => auth rq = Bearer (current_token (world (run srv vars))))
           later.
Proof.
  destruct (run_requests srv vars) as (first & later & H & Hf & Hl).
  exists first, later. repeat split; auto.
  eapply Forall_impl; [|exact Hl]. now intros rq [_ H'].
Qed.

(* ===================================================================== *)
(** * The order of a run *)
(* ===================================================================== *)

(** X8. At most one branch of the first gate is run when its callable
    returns one of the two labels of its return statements: whatever the task
    callables do otherwise, [backup] and [nope] are never both executed, and
    when [nope] is executed the backup, the retraining, the validation and
    both email tasks are [skipped]. *)
Theorem one_branch_executed (cs : string -> callable) (w : World) :
  (forall ti w0 v w1, cs "Check_accuracy" ti w0 = (Return v, w1) ->
     v = PyStr "nope" \/ v = PyStr "backup") ->
  let r := run_dag cs workflow w in
  executed "backup" r && executed "nope" r = false /\
  (executed "nope" r = true ->
   Forall (fun id => state_of id r = Some skipped)
          ["backup"; "retrain"; "validate"; "email_success";
           "email_failure"]).
Proof.
  intros H. cbv zeta. rewrite run_dag_steps.
  do 3 (eval_step; try split_attempts).
  all: try split_branch.
  all: known_labels H.
  all: repeat (eval_step; try split_attempts; try split_branch).
  all: cbn; split; try reflexivity; try discriminate.
  all: intros _; repeat constructor.
Qed.

Lemma one_branch_executed_witness :
  let r := run_dag Scenarios.gate_holds workflow empty_world in
  executed "nope" r = true /\
  executed "backup" r && executed "nope" r = false /\
  (executed "nope" r = true ->
   Forall (fun id => state_of id r = Some skipped)
          ["backup"; "retrain"; "validate"; "email_success";
           "email_failure"]).
Proof.
  cbv zeta. split; [vm_compute; reflexivity|].
  apply (one_branch_executed Scenarios.gate_holds empty_world).
  intros ti w0 v w1 [= <- _]. now left.
Defined.

(** A first gate that returns the list of both labels has both branches
    run. *)
Example both_branches_followed :
  let r := run_dag Scenarios.both_branches workflow empty_world in
  executed "backup" r = true /\ executed "nope" r = true /\
  state_of "email_failure" r = Some failed /\
  state_of "email_success" r = Some skipped /\ notified r = [].
Proof. vm_compute. repeat split; reflexivity. Qed.

(** A gate that returns an id that is no task fails after its last
    attempt. *)
Example unknown_branch_fails :
  let cs : string -> callable := fun _ _ => ret (PyStr "noop") in
  let r := run_dag cs workflow empty_world in
  state_of "Check_accuracy" r = Some failed /\
  lookup "Check_accuracy" (try_numbers r) = Some (max_tries workflow) /\
  state_of "nope" r = Some upstream_failed.
Proof. vm_compute. repeat split; reflexivity. Qed.

(** X9. A run of the workflow ends in one of three ways, whatever the API
    answers: [get_jwt_token] failed; or it succeeded and [recharge_data]
    failed; or both succeeded and [Check_accuracy] failed. The failed task
    made all its [1 + retries] attempts, and every task after it is
    [upstream_failed]. *)
Theorem run_outcomes (srv : Server) (vars : list (string * string)) :
  let r := run srv vars in
  let final := map (fun t => state_of (task_id t) r) (tasks workflow) in
  (final = Some failed :: repeat (Some upstream_failed) 8 /\
   try_numbers r = [("get_jwt_token", max_tries workflow)]) \/
  (final = Some success :: Some failed :: repeat (Some upstream_failed) 7 /\
   lookup "recharge_data" (try_numbers r) = Some (max_tries workflow)) \/
  (final = Some success :: Some success :: Some failed
           :: repeat (Some upstream_failed) 6 /\
   lookup "Check_accuracy" (try_numbers r) = Some (max_tries workflow)).
Proof.
  cbv zeta. unfold run. run_workflow.
  all: repeat match goal with
       | E : attempts _ _ _ = (None, _, _) |- _ =>
           apply attempts_exhausted in E; subst
       end.
  - right; right. split; reflexivity.
  - right; left. split; reflexivity.
  - left. split; reflexivity.
Qed.

(* ===================================================================== *)
(** * Archiving the model *)
(* ===================================================================== *)

Lemma lookup_app_new {A : Type} (k : string) (v : A) (l : list (string * A)) :
  lookup k l = None -> lookup k (l ++ [(k, v)])%list = Some v.
Proof.
  induction l as [|[k' v'] l IH]; simpl.
  - now rewrite String.eqb_refl.
  - destruct (k' =? k); [discriminate|exact IH].
Qed.

Lemma lookup_app_other {A : Type} (k n : string) (v : A)
  (l : list (string * A)) :
  n <> k -> lookup n (l ++ [(k, v)])%list = lookup n l.
Proof.
  intros Hn. induction l as [|[k' v'] l IH]; simpl.
  - destruct (String.eqb_spec k n); congruence.
  - now rewrite IH.
Qed.

Lemma lookup_store (k : string) (m : Main.Model)
  (l : list (string * option Main.Model)) :
  lookup k l <> None -> lookup k (Main.store k m l) = Some (Some m).
Proof.
  induction l as [|[k' v'] l IH]; simpl; [congruence|].
  destruct (k' =? k) eqn:E; simpl; rewrite E; auto.
Qed.

Lemma lookup_store_other (k n : string) (m : Main.Model)
  (l : list (string * option Main.Model)) :
  n <> k -> lookup n (Main.store k m l) = lookup n l.
Proof.
  intros Hn. induction l as [|[k' v'] l IH]; simpl; [reflexivity|].
  destruct (String.eqb_spec k' k) as [->|Hk]; simpl.
  - destruct (String.eqb_spec k n); congruence.
  - now rewrite IH.
Qed.

Lemma store_length (k : string) (m : Main.Model)
  (l : list (string * option Main.Model)) :
  length (Main.store k m l) = length l.
Proof.
  induction l as [|[k' v'] l IH]; simpl; [reflexivity|].
  destruct (k' =? k); simpl; auto.
Qed.

Lemma lookup_mkdir (k : string) (fs : Main.FileSystem) :
  lookup k (Main.archives (Main.mkdir k fs)) <> None /\
  (lookup k (Main.archives fs) <> None -> Main.mkdir k fs = fs) /\
  Main.trained_model (Main.mkdir k fs) = Main.trained_model fs /\
  forall n : string, n <> k ->
    lookup n (Main.archives (Main.mkdir k fs)) = lookup n (Main.archives fs).
Proof.
  unfold Main.mkdir. destruct (lookup k (Main.archives fs)) eqn:E; simpl.
  - rewrite E. repeat split; congruence.
  - rewrite (lookup_app_new k None _ E).
    repeat split; try congruence.
    intros n Hn. now apply lookup_app_other.
Qed.

(** With a model file in place, the endpoint creates the directory if need
    be and copies the file into it. *)
Lemma backup_copies (datetime_now : string) (fs : Main.FileSystem)
  (m : Main.Model) :
  Main.trained_model fs = Some m ->
  Main.backup (Return true) datetime_now fs
  = (Return tt,
     Main.mkFileSystem (Some m)
       (Main.store ("archive -" ++ datetime_now) m
          (Main.archives (Main.mkdir ("archive -" ++ datetime_now) fs)))).
Proof.
  intros Hm. unfold Main.backup, Main.copy_model_to_archive.
  destruct (lookup_mkdir ("archive -" ++ datetime_now) fs)
    as (_ & _ & Ht & _).
  now rewrite Ht, Hm.
Qed.

(** X10. For an authenticated user and with a trained model in place,
    [/backup] succeeds; afterwards the directory [archive -<time stamp>]
    holds a copy of the current model, the current model is still in place,
    and every other directory of the archives is as it was. *)
Theorem backup_archives_the_model (datetime_now : string)
  (fs : Main.FileSystem) (m : Main.Model) :
  Main.trained_model fs = Some m ->
  exists fs',
    Main.backup (Return true) datetime_now fs = (Return tt, fs') /\
    lookup ("archive -" ++ datetime_now) (Main.archives fs')
    = Some (Some m) /\
    Main.trained_model fs' = Some m /\
    forall n : string, n <> "archive -" ++ datetime_now ->
      lookup n (Main.archives fs') = lookup n (Main.archives fs).
Proof.
  intros Hm. rewrite (backup_copies datetime_now fs m Hm).
  destruct (lookup_mkdir ("archive -" ++ datetime_now) fs)
    as (Hd & _ & _ & Ho).
  eexists. split; [reflexivity|]. cbn [Main.archives Main.trained_model].
  split; [now apply lookup_store|]. split; [reflexivity|].
  intros n Hn. rewrite lookup_store_other by exact Hn. now apply Ho.
Qed.

Lemma backup_archives_the_model_witness :
  exists fs',
    Main.backup (Return true) "20240522080000" Scenarios.two_archives
    = (Return tt, fs') /\
    lookup ("archive -" ++ "20240522080000") (Main.archives fs')
    = Some (Some "model retrained") /\
    Main.trained_model fs' = Some "model retrained" /\
    forall n : string, n <> "archive -" ++ "20240522080000" ->
      lookup n (Main.archives fs')
      = lookup n (Main.archives Scenarios.two_archives).
Proof.
  apply (backup_archives_the_model "20240522080000" Scenarios.two_archives
           "model retrained").
  reflexivity.
Defined.

(** X11. Without a trained model on disk, [/backup] raises
    [FileNotFoundError] for an authenticated user, after it has created the
    directory: a new, empty directory [archive -<time stamp>] is left in the
    archives (nothing changes when a directory of that name was already
    there). *)
Theorem backup_without_model (datetime_now : string)
  (fs : Main.FileSystem) :
  Main.trained_model fs = None ->
  exists fs',
    Main.backup (Return true) datetime_now fs
    = (Raise FileNotFoundError, fs') /\
    (lookup ("archive -" ++ datetime_now) (Main.archives fs) = None ->
     Main.archives fs'
     = (Main.archives fs
        ++ [(("archive -" ++ datetime_now)%string, None)])%list) /\
    (lookup ("archive -" ++ datetime_now) (Main.archives fs) <> None ->
     fs' = fs).
Proof.
  intros Hm. unfold Main.backup, Main.copy_model_to_archive.
  destruct (lookup_mkdir ("archive -" ++ datetime_now) fs)
    as (_ & Hs & Ht & _).
  rewrite Ht, Hm. eexists. split; [reflexivity|]. split; [|exact Hs].
  intros Hn. unfold Main.mkdir. now rewrite Hn.
Qed.

Lemma backup_without_model_witness :
  exists fs',
    Main.backup (Return true) "20240522080000" (Main.mkFileSystem None [])
    = (Raise FileNotFoundError, fs') /\
    (lookup ("archive -" ++ "20240522080000")
       (Main.archives (Main.mkFileSystem None [])) = None ->
     Main.archives fs'
     = (Main.archives (Main.mkFileSystem None [])
        ++ [(("archive -" ++ "20240522080000")%string, None)])%list) /\
    (lookup ("archive -" ++ "20240522080000")
       (Main.archives (Main.mkFileSystem None [])) <> None ->
     fs' = Main.mkFileSystem None []).
Proof.
  apply (backup_without_model "20240522080000" (Main.mkFileSystem None [])).
  reflexivity.
Defined.

(** X12. Two backups under the same time stamp (the stamp has a resolution
    of one second) share one directory: the second one succeeds, adds no
    directory, and replaces the model archived by the first with the model
    current at the second. *)
Theorem backup_same_second_overwrites (datetime_now : string)
  (fs : Main.FileSystem) (m m' : Main.Model) :
  Main.trained_model fs = Some m ->
  let fs1 := snd (Main.backup (Return true) datetime_now fs) in
  let retrained := Main.mkFileSystem (Some m') (Main.archives fs1) in
  let fs2 := snd (Main.backup (Return true) datetime_now retrained) in
  fst (Main.backup (Return true) datetime_now retrained) = Return tt /\
  length (Main.archives fs2) = length (Main.archives fs1) /\
  lookup ("archive -" ++ datetime_now) (Main.archives fs1)
  = Some (Some m) /\
  lookup ("archive -" ++ datetime_now) (Main.archives fs2)
  = Some (Some m').
Proof.
  intros Hm fs1 retrained fs2.
  destruct (lookup_mkdir ("archive -" ++ datetime_now) fs)
    as (Hd & _ & _ & _).
  assert (Hl : lookup ("archive -" ++ datetime_now) (Main.archives fs1)
               = Some (Some m)).
  { unfold fs1. rewrite (backup_copies datetime_now fs m Hm).
    cbn [snd Main.archives]. now apply lookup_store. }
  assert (Hr : lookup ("archive -" ++ datetime_now) (Main.archives retrained)
               <> None).
  { unfold retrained. cbn [Main.archives]. rewrite Hl. discriminate. }
  destruct (lookup_mkdir ("archive -" ++ datetime_now) retrained)
    as (_ & Hs & _ & _).
  unfold fs2. rewrite (backup_copies datetime_now retrained m' eq_refl).
  rewrite (Hs Hr). cbn [fst snd Main.archives retrained].
  rewrite store_length. repeat split; [exact Hl|].
  apply lookup_store. rewrite Hl. discriminate.
Qed.

Lemma backup_same_second_overwrites_witness :
  let fs1 := snd (Main.backup (Return true) "20240521080000"
                    Scenarios.two_archives) in
  let retrained := Main.mkFileSystem (Some "model of 21 May, later")
                                     (Main.archives fs1) in
  let fs2 := snd (Main.backup (Return true) "20240521080000" retrained) in
  fst (Main.backup (Return true) "20240521080000" retrained) = Return tt /\
  length (Main.archives fs2) = length (Main.archives fs1) /\
  lookup ("archive -" ++ "20240521080000") (Main.archives fs1)
  = Some (Some "model retrained") /\
  lookup ("archive -" ++ "20240521080000") (Main.archives fs2)
  = Some (Some "model of 21 May, later").
Proof.
  apply (backup_same_second_overwrites "20240521080000"
           Scenarios.two_archives "model retrained"
           "model of 21 May, later").
  reflexivity.
Defined.

(* ===================================================================== *)
(** * Access tokens *)
(* ===================================================================== *)

Lemma lookup_update (k : string) (v : SecurityCenter.claim)
  (d : list (string * SecurityCenter.claim)) :
  lookup k (SecurityCenter.update k v d) = Some v /\
  forall n : string, n <> k ->
    lookup n (SecurityCenter.update k v d) = lookup n d.
Proof.
  induction d as [|[k' v'] d [IH1 IH2]]; simpl.
  - rewrite String.eqb_refl. split; [reflexivity|].
    intros n Hn. destruct (String.eqb_spec k n); congruence.
  - destruct (String.eqb_spec k' k) as [->|Hk]; simpl.
    + rewrite String.eqb_refl. split; [reflexivity|].
      intros n Hn. destruct (String.eqb_spec k n); congruence.
    + destruct (String.eqb_spec k' k) as [E|_]; [congruence|].
      split; [exact IH1|].
      intros n Hn. now rewrite IH2.
Qed.

(** X13. The lifetime of a token is [expires_delta] when that is a
    duration other than zero (a negative one gives a token that has already
    expired), and 15 minutes when it is absent or zero. When [now] plus the
    lifetime is an instant a [datetime] can hold, [create_access_token] hands
    [jwt.encode] the claims of [data] with [exp] set to that instant: every
    other key keeps its value, and an [exp] the caller supplied is replaced.
    When the sum is out of range it raises [OverflowError] and encodes
    nothing. *)
Theorem create_access_token_claims
  (jwt_encode : list (string * SecurityCenter.claim) -> option string ->
                string -> outcome string)
  (SECRET_KEY : option string) (now : Z)
  (data : list (string * SecurityCenter.claim)) (expires_delta : option Z)
  (lifetime : Z) :
  (expires_delta = Some lifetime /\ lifetime <> 0%Z) \/
  ((expires_delta = None \/ expires_delta = Some 0%Z) /\
   lifetime = (15 * 60 * 1000000)%Z) ->
  ((SecurityCenter.datetime_min <= now + lifetime
    <= SecurityCenter.datetime_max)%Z ->
   exists to_encode,
     SecurityCenter.create_access_token jwt_encode SECRET_KEY now data
       expires_delta
     = jwt_encode to_encode SECRET_KEY "HS256" /\
     lookup "exp" to_encode
     = Some (SecurityCenter.Instant (now + lifetime)) /\
     forall k : string, k <> "exp" -> lookup k to_encode = lookup k data) /\
  (~ (SecurityCenter.datetime_min <= now + lifetime
      <= SecurityCenter.datetime_max)%Z ->
   SecurityCenter.create_access_token jwt_encode SECRET_KEY now data
     expires_delta
   = Raise OverflowError).
Proof.
  intros Hl.
  assert (E : SecurityCenter.create_access_token jwt_encode SECRET_KEY now
                data expires_delta
              = match SecurityCenter.add now (Some lifetime) with
                | Return expire =>
                    jwt_encode
                      (SecurityCenter.update "exp"
                         (SecurityCenter.Instant expire) data)
                      SECRET_KEY "HS256"
                | Raise e => Raise e
                end).
  { unfold SecurityCenter.create_access_token.
    destruct Hl as [[-> Hn]|[[->| ->] ->]]; cbn [SecurityCenter.truth].
    - apply Z.eqb_neq in Hn. now rewrite Hn.
    - reflexivity.
    - reflexivity. }
  rewrite E. unfold SecurityCenter.add. split.
  - intros [H1 H2]. apply Z.leb_le in H1, H2. rewrite H1, H2. cbn [andb].
    eexists. split; [reflexivity|]. apply lookup_update.
  - intros Hr.
    destruct (Z.leb_spec SecurityCenter.datetime_min (now + lifetime)),
             (Z.leb_spec (now + lifetime) SecurityCenter.datetime_max);
      cbn [andb]; try reflexivity.
    elim Hr. split; assumption.
Qed.

(** The token [/token] asks for, half an hour away from a day of 2023. *)
Lemma create_access_token_claims_witness :
  exists to_encode,
    SecurityCenter.create_access_token Scenarios.jwt_encode (Some "key")
      1700000000000000 [("sub", SecurityCenter.Claim (PyStr "alice"))]
      (Some (SecurityCenter.timedelta
               SecurityCenter.ACCESS_TOKEN_EXPIRE_MINUTES))
    = Scenarios.jwt_encode to_encode (Some "key") "HS256" /\
    lookup "exp" to_encode
    = Some (SecurityCenter.Instant (1700000000000000 + 1800000000)) /\
    forall k : string, k <> "exp" ->
      lookup k to_encode
      = lookup k [("sub", SecurityCenter.Claim (PyStr "alice"))].
Proof.
  apply (create_access_token_claims Scenarios.jwt_encode (Some "key")
           1700000000000000 [("sub", SecurityCenter.Claim (PyStr "alice"))]
           (Some (SecurityCenter.timedelta
                    SecurityCenter.ACCESS_TOKEN_EXPIRE_MINUTES))
           1800000000).
  - left. split; [reflexivity|discriminate].
  - unfold SecurityCenter.datetime_min, SecurityCenter.datetime_max. lia.
Defined.

(** A duration of three million days leaves the range of [datetime]:
    nothing is encoded. *)
Example create_access_token_overflow :
  SecurityCenter.create_access_token Scenarios.jwt_encode (Some "key")
    1700000000000000 [("sub", SecurityCenter.Claim (PyStr "alice"))]
    (Some (3000000 * 86400 * 1000000)%Z)
  = Raise OverflowError.
Proof. reflexivity. Qed.

(** The token [/token] asks for: the subject is the user name, the expiry
    30 minutes away. *)
Example create_access_token_for_a_user :
  SecurityCenter.create_access_token Scenarios.jwt_encode (Some "key")
    1700000000000000 [("sub", SecurityCenter.Claim (PyStr "alice"))]
    (Some (SecurityCenter.timedelta
             SecurityCenter.ACCESS_TOKEN_EXPIRE_MINUTES))
  = Scenarios.jwt_encode
      [("sub", SecurityCenter.Claim (PyStr "alice"));
       ("exp", SecurityCenter.Instant 1700001800000000)]
      (Some "key") "HS256".
Proof. reflexivity. Qed.

(** X14. [get_user_with_token] returns a user only for a token that
    decodes, and then the first row of the table whose user name is the
    subject of the token. Every failure is the same [HTTPException] with
    status 401: a token that does not decode, a token without subject, a
    subject no user bears. *)
Theorem get_user_with_token_outcome
  (jwt_decode : string -> option string -> list string ->
                option (list (string * pyobj)))
  (SECRET_KEY : option string) (db : list Database.User) (token : string) :
  match SecurityCenter.get_user_with_token jwt_decode SECRET_KEY db token with
  | Return user =>
      exists payload before after,
        jwt_decode token SECRET_KEY ["HS256"] = Some payload /\
        lookup "sub" payload = Some (PyStr (Database.username user)) /\
        db = (before ++ user :: after)%list /\
        Forall (fun u => Database.username u <> Database.username user) before
  | Raise e =>
      e = HTTPException 401 \/
      exists payload v,
        jwt_decode token SECRET_KEY ["HS256"] = Some payload /\
        lookup "sub" payload = Some v /\ v <> PyNone /\
        (forall s, v <> PyStr s) /\
        e = Unmodelled "subject that is no string"
  end.
Proof.
  unfold SecurityCenter.get_user_with_token.
  destruct (jwt_decode token SECRET_KEY _) as [payload|]; [|now left].
  unfold call_method. cbn.
  destruct (lookup "sub" payload) as [v|] eqn:Hs; [|now left].
  destruct v; try (right; exists payload; eexists; repeat split;
                    [exact Hs|discriminate|discriminate]); [now left|].
  destruct (find _ db) as [user|] eqn:Hf; [|now left].
  assert (H : forall l, find (fun u => Database.username u =? s) l = Some user
              -> Database.username user = s /\
                 exists before after, l = (before ++ user :: after)%list /\
                   Forall (fun u => Database.username u <> s) before).
  { clear. induction l as [|x l IH]; simpl; [discriminate|].
    destruct (String.eqb_spec (Database.username x) s) as [Hx|Hx].
    - intros [= ->]. split; [exact Hx|]. now exists [], l.
    - intros Hl. destruct (IH Hl) as (Hu & b & a & -> & Hb).
      split; [exact Hu|]. exists (x :: b), a. split; [reflexivity|].
      now constructor. }
  destruct (H db Hf) as (Hu & before & after & Hdb & Hb).
  exists payload, before, after. rewrite Hu. auto.
Qed.

(** Two users bear the name; the token of that name gives the first. *)
Example get_user_with_token_first_row :
  option_map Database.id
    (match SecurityCenter.get_user_with_token Scenarios.jwt_decode
             (Some "key") Scenarios.users "alice" with
     | Return user => Some user
     | Raise _ => None
     end) = Some 2%Z /\
  SecurityCenter.get_user_with_token Scenarios.jwt_decode (Some "key")
    Scenarios.users "expired" = Raise (HTTPException 401) /\
  SecurityCenter.get_user_with_token Scenarios.jwt_decode (Some "key")
    Scenarios.users "bob" = Raise (HTTPException 401).
Proof. repeat split. Qed.
